(** * ParkingNLT: a shallow embedding of [app.py]

    The Flask application of ParkingNLT in Rocq: the blackout-window check
    [booking_allowed], the reservation endpoint [create_checkout_session],
    the admin endpoint [admin_view_reservations] and the small router over
    the five routes.

    A Python [str] is a list of Unicode code points ([pystr]).  The library
    functions the code calls ([json.loads], [time.fromisoformat],
    [check_password_hash]) are section variables of the application; the
    theorems hold for every behaviour of them.  Concrete models of
    [json.loads] (CPython's C scanner) and [time.fromisoformat] (its
    documented format in Python 3.7 to 3.10) are given for evaluating the
    application on concrete inputs. *)

From Stdlib Require Import ZArith List String Ascii Bool Lia.
Import ListNotations.
Open Scope Z_scope.

(** ** Python strings *)

Abbreviation pystr := (list Z) (only parsing).

(** ASCII literal to code points, to write Python literals. *)
Fixpoint s2c (s : string) : pystr :=
  match s with
  | EmptyString => []
  | String a r => Z.of_nat (nat_of_ascii a) :: s2c r
  end.

(** Literal with ['] standing for the double quote, to write JSON text. *)
Definition js (s : string) : pystr :=
  map (fun c => if c =? 39 then 34 else c) (s2c s).

Fixpoint pystr_eqb (a b : pystr) : bool :=
  match a, b with
  | [], [] => true
  | x :: a', y :: b' => (x =? y) && pystr_eqb a' b'
  | _, _ => false
  end.

(** ** JSON values, as [json.loads] returns them.
    [JNum] keeps the lexeme of a number (int, float, [NaN], [Infinity]);
    [JObj] keeps the members in source order, duplicates included. *)
Set Warnings "-register-all".
Inductive json : Type :=
| JNull
| JBool (b : bool)
| JNum (lexeme : pystr)
| JStr (s : pystr)
| JArr (items : list json)
| JObj (members : list (pystr * json)).

(** *** A model of CPython's [json.loads] (the C scanner, [strict=True]).
    The recursion limit of the interpreter is not modelled. *)
Module JsonModel.

Definition is_ws (c : Z) : bool :=
  (c =? 32) || (c =? 9) || (c =? 10) || (c =? 13).

Fixpoint skip_ws (s : pystr) : pystr :=
  match s with
  | c :: r => if is_ws c then skip_ws r else s
  | [] => []
  end.

Definition is_digit (c : Z) : bool := (48 <=? c) && (c <=? 57).

Fixpoint take_digits (s : pystr) : pystr * pystr :=
  match s with
  | c :: r => if is_digit c then let '(d, r') := take_digits r in (c :: d, r')
              else ([], s)
  | [] => ([], [])
  end.

(** [_match_number_unicode]: [-?(0|[1-9][0-9]* )(\.[0-9]+)?([eE][-+]?[0-9]+)?] *)
Definition parse_number (s : pystr) : option (json * pystr) :=
  let '(sgn, s1) := match s with 45 :: r => ([45], r) | _ => ([], s) end in
  let int_part :=
    match s1 with
    | 48 :: r => Some ([48], r)
    | c :: r => if (49 <=? c) && (c <=? 57)
                then let '(d, r') := take_digits r in Some (c :: d, r')
                else None
    | [] => None
    end in
  match int_part with
  | None => None
  | Some (ip, r1) =>
      let '(fp, r2) :=
        match r1 with
        | 46 :: d :: r => if is_digit d
                          then let '(ds, r') := take_digits (d :: r) in (46 :: ds, r')
                          else ([], r1)
        | _ => ([], r1)
        end in
      let '(ep, r3) :=
        match r2 with
        | e :: r =>
            if (e =? 69) || (e =? 101) then
              let '(es, r') := match r with
                               | c :: x => if (c =? 43) || (c =? 45) then ([c], x) else ([], r)
                               | [] => ([], r)
                               end in
              match take_digits r' with
              | ([], _) => ([], r2)
              | (ds, r'') => (e :: es ++ ds, r'')
              end
            else ([], r2)
        | [] => ([], r2)
        end in
      Some (JNum (sgn ++ ip ++ fp ++ ep), r3)
  end.

Definition hex_val (c : Z) : option Z :=
  if (48 <=? c) && (c <=? 57) then Some (c - 48)
  else if (65 <=? c) && (c <=? 70) then Some (c - 55)
  else if (97 <=? c) && (c <=? 102) then Some (c - 87)
  else None.

Definition hex4 (a b c d : Z) : option Z :=
  match hex_val a, hex_val b, hex_val c, hex_val d with
  | Some x, Some y, Some z, Some w => Some (((x * 16 + y) * 16 + z) * 16 + w)
  | _, _, _, _ => None
  end.

(** [scanstring_unicode] after the opening quote: the decoded string and the
    rest of the input after the closing quote. *)
Fixpoint scan_string (fuel : nat) (s : pystr) : option (pystr * pystr) :=
  match fuel with
  | O => None
  | S f =>
    match s with
    | [] => None
    | 34 :: r => Some ([], r)
    | 92 :: e :: r =>
        let simple (c : Z) :=
          match scan_string f r with Some (x, r') => Some (c :: x, r') | None => None end in
        if e =? 34 then simple 34
        else if e =? 92 then simple 92
        else if e =? 47 then simple 47
        else if e =? 98 then simple 8
        else if e =? 102 then simple 12
        else if e =? 110 then simple 10
        else if e =? 114 then simple 13
        else if e =? 116 then simple 9
        else if e =? 117 then
          match r with
          | a :: b :: c :: d :: r1 =>
              match hex4 a b c d with
              | None => None
              | Some u =>
                  let lone :=
                    match scan_string f r1 with Some (x, r') => Some (u :: x, r') | None => None end in
                  if (55296 <=? u) && (u <=? 56319) then
                    match r1 with
                    | 92 :: 117 :: a2 :: b2 :: c2 :: d2 :: r2 =>
                        match hex4 a2 b2 c2 d2 with
                        | Some u2 =>
                            if (56320 <=? u2) && (u2 <=? 57343) then
                              match scan_string f r2 with
                              | Some (x, r') =>
                                  Some ((65536 + (u - 55296) * 1024 + (u2 - 56320)) :: x, r')
                              | None => None
                              end
                            else lone
                        | None => None
                        end
                    | _ => lone
                    end
                  else lone
              end
          | _ => None
          end
        else None
    | [92] => None
    | c :: r =>
        if c <? 32 then None
        else match scan_string f r with Some (x, r') => Some (c :: x, r') | None => None end
    end
  end.

Definition starts_with (p s : pystr) : option pystr :=
  if pystr_eqb (firstn (List.length p) s) p then Some (skipn (List.length p) s) else None.

Fixpoint scan_value (fuel : nat) (s : pystr) : option (json * pystr) :=
  match fuel with
  | O => None
  | S f =>
    match s with
    | 34 :: r =>
        match scan_string (List.length r + 1) r with
        | Some (x, r') => Some (JStr x, r')
        | None => None
        end
    | 123 :: r =>
        match skip_ws r with
        | 125 :: r' => Some (JObj [], r')
        | r' => scan_members f r' []
        end
    | 91 :: r =>
        match skip_ws r with
        | 93 :: r' => Some (JArr [], r')
        | r' => scan_items f r' []
        end
    | _ =>
        match starts_with (s2c "null") s with Some r => Some (JNull, r) | None =>
        match starts_with (s2c "true") s with Some r => Some (JBool true, r) | None =>
        match starts_with (s2c "false") s with Some r => Some (JBool false, r) | None =>
        match starts_with (s2c "NaN") s with Some r => Some (JNum (s2c "NaN"), r) | None =>
        match starts_with (s2c "Infinity") s with Some r => Some (JNum (s2c "Infinity"), r) | None =>
        match starts_with (s2c "-Infinity") s with Some r => Some (JNum (s2c "-Infinity"), r) | None =>
          parse_number s
        end end end end end end
    end
  end
(** array items, after [[] and the whitespace following it *)
with scan_items (fuel : nat) (s : pystr) (acc : list json) : option (json * pystr) :=
  match fuel with
  | O => None
  | S f =>
    match scan_value f s with
    | None => None
    | Some (v, r) =>
        match skip_ws r with
        | 44 :: r' => scan_items f (skip_ws r') (v :: acc)
        | 93 :: r' => Some (JArr (rev (v :: acc)), r')
        | _ => None
        end
    end
  end
(** object members, at the opening quote of a key *)
with scan_members (fuel : nat) (s : pystr) (acc : list (pystr * json)) : option (json * pystr) :=
  match fuel with
  | O => None
  | S f =>
    match s with
    | 34 :: r =>
        match scan_string (List.length r + 1) r with
        | None => None
        | Some (k, r1) =>
            match skip_ws r1 with
            | 58 :: r2 =>
                match scan_value f (skip_ws r2) with
                | None => None
                | Some (v, r3) =>
                    match skip_ws r3 with
                    | 44 :: r4 => scan_members f (skip_ws r4) ((k, v) :: acc)
                    | 125 :: r4 => Some (JObj (rev ((k, v) :: acc)), r4)
                    | _ => None
                    end
                end
            | _ => None
            end
        end
    | _ => None
    end
  end.

(** [json.loads]: leading and trailing whitespace, no extra data. *)
Definition json_loads (s : pystr) : option json :=
  match scan_value (3 * List.length s + 3) (skip_ws s) with
  | Some (v, r) => match skip_ws r with [] => Some v | _ => None end
  | None => None
  end.

End JsonModel.

(** ** Times of day ([datetime.time]) *)

(** The wall-clock fields of a [time]. *)
Record clock := mkClock { hour : Z; minute : Z; second : Z; microsecond : Z }.

(** A [time] with its [tzinfo]: [None] for a naive time, [Some off] for a
    fixed UTC offset of [off] microseconds. *)
Record pytime := mkTime { t_clock : clock; t_utcoffset : option Z }.

(** [time] ordering on the fields: the tuple comparison CPython does when
    both operands have the same [tzinfo]. *)
Definition clock_le (a b : clock) : bool :=
  (hour a <? hour b) ||
  ((hour a =? hour b) &&
   ((minute a <? minute b) ||
    ((minute a =? minute b) &&
     ((second a <? second b) ||
      ((second a =? second b) && (microsecond a <=? microsecond b)))))).

(** [t <= now] with [now] naive: a naive [t] compares by its fields, an
    aware one raises [TypeError] ([None]). *)
Definition time_le_naive (t : pytime) (now : clock) : option bool :=
  match t_utcoffset t with
  | None => Some (clock_le (t_clock t) now)
  | Some _ => None
  end.

(** [now <= t] with [now] naive. *)
Definition naive_le_time (now : clock) (t : pytime) : option bool :=
  match t_utcoffset t with
  | None => Some (clock_le now (t_clock t))
  | Some _ => None
  end.

(** *** A model of [time.fromisoformat] on the documented format of
    Python 3.7 to 3.10: [HH[:MM[:SS[.fff[fff]]]][+HH:MM[:SS[.ffffff]]]],
    with the range checks of the [time] and [timezone] constructors. *)
Module TimeModel.

Definition digit (c : Z) : option Z :=
  if (48 <=? c) && (c <=? 57) then Some (c - 48) else None.

Fixpoint digits (n : nat) (s : pystr) (acc : Z) : option Z :=
  match n, s with
  | O, [] => Some acc
  | O, _ :: _ => None
  | S n', c :: r => match digit c with Some d => digits n' r (acc * 10 + d) | None => None end
  | S _, [] => None
  end.

(** [HH[:MM[:SS[.fff[fff]]]]], the whole string. *)
Definition parse_hh_mm_ss_ff (s : pystr) : option clock :=
  match s with
  | a :: b :: r0 =>
    match digits 2 [a; b] 0 with None => None | Some h =>
    match r0 with
    | [] => Some (mkClock h 0 0 0)
    | 58 :: c :: d :: r1 =>
      match digits 2 [c; d] 0 with None => None | Some m =>
      match r1 with
      | [] => Some (mkClock h m 0 0)
      | 58 :: e :: f :: r2 =>
        match digits 2 [e; f] 0 with None => None | Some sec =>
        match r2 with
        | [] => Some (mkClock h m sec 0)
        | 46 :: fr =>
            if (List.length fr =? 3)%nat then
              match digits 3 fr 0 with Some us => Some (mkClock h m sec (us * 1000)) | None => None end
            else if (List.length fr =? 6)%nat then
              match digits 6 fr 0 with Some us => Some (mkClock h m sec us) | None => None end
            else None
        | _ => None
        end end
      | _ => None
      end end
    | _ => None
    end end
  | _ => None
  end.

Definition clock_in_range (c : clock) : bool :=
  (0 <=? hour c) && (hour c <=? 23) && (0 <=? minute c) && (minute c <=? 59) &&
  (0 <=? second c) && (second c <=? 59) &&
  (0 <=? microsecond c) && (microsecond c <=? 999999).

Fixpoint split_at_sign (s : pystr) : pystr * pystr :=
  match s with
  | [] => ([], [])
  | c :: r => if (c =? 43) || (c =? 45) then ([], s)
              else let '(a, b) := split_at_sign r in (c :: a, b)
  end.

Definition time_fromisoformat (s : pystr) : option pytime :=
  let '(ts, tzs) := split_at_sign s in
  match parse_hh_mm_ss_ff ts with
  | None => None
  | Some c =>
    if negb (clock_in_range c) then None else
    match tzs with
    | [] => Some (mkTime c None)
    | sg :: tzb =>
        let n := List.length tzb in
        if negb ((n =? 5)%nat || (n =? 8)%nat || (n =? 15)%nat) then None else
        match parse_hh_mm_ss_ff tzb with
        | None => None
        | Some o =>
            let sign := if sg =? 45 then -1 else 1 in
            let off := sign * (((hour o * 3600 + minute o * 60 + second o) * 1000000)
                               + microsecond o) in
            if (- 86400000000 <? off) && (off <? 86400000000)
            then Some (mkTime c (Some off)) else None
        end
    end
  end.

End TimeModel.

(** ** Records of the environment *)

(** [datetime.datetime] *)
Record datetime := mkDatetime { year : Z; month : Z; day : Z; dt_clock : clock }.

(** The Stripe [checkout.Session.create] arguments. *)
Record line_item := mkLineItem {
  li_currency : pystr;        (* price_data.currency *)
  li_product_name : pystr;    (* price_data.product_data.name *)
  li_unit_amount : Z;         (* price_data.unit_amount *)
  li_quantity : Z             (* quantity *)
}.

Record checkout_request := mkCheckout {
  payment_method_types : list pystr;
  line_items : list line_item;
  mode : pystr;
  success_url : pystr;
  cancel_url : pystr
}.

(** What [stripe.checkout.Session.create] does: a session with its hosted
    page URL, or an exception whose [str] is [message]. *)
Inductive stripe_result :=
| StripeSession (url : pystr)
| StripeError (message : pystr).

(** Process configuration, read from the environment. *)
Record config := mkConfig {
  BLACKOUT_WINDOWS : option pystr;   (* os.getenv(BLACKOUT_WINDOWS) *)
  ADMIN_USERNAME : pystr;
  ADMIN_PASSWORD_HASH : pystr;
  root_path : pystr;                 (* app.root_path, where send_file looks *)
  cwd : pystr                        (* os.getcwd(), where open() looks *)
}.

(** What the outside world answers during one request. *)
Record externals := mkExternals {
  now_time : clock;                  (* datetime.now().time() in booking_allowed *)
  now_stamp : datetime;              (* datetime.now() when the row is written *)
  url_root : pystr;                  (* prefix of url_for(..., _external=True) *)
  stripe_create : checkout_request -> stripe_result
}.

(** How the [with open(RESERVATION_FILE, mode='a', newline='')] block
    fails: [open] itself raises (nothing is created or written), or a
    [writerow] or the flush at [close] raises after the first [n] code
    units of the text reached the file (a full disk, a quota). *)
Inductive append_error :=
| OpenRaises (message : pystr)
| WriteRaises (n : nat) (message : pystr).

(** The file system as far as [reservations.csv] goes.  Paths are
    compared as strings: two different strings name two directories. *)
Record fs := mkFs {
  log_file : option pystr;           (* cwd/reservations.csv; None: missing *)
  open_append_error : option append_error;  (* the with block raises this *)
  read_error : option pystr;         (* send_file raises this *)
  root_log_file : option pystr       (* root_path/reservations.csv, when root_path is not cwd *)
}.

(** [request.authorization]: werkzeug's parse of the [Authorization]
    header.  A [Basic] header carries both fields; other schemes carry
    their parameters, so a [Digest] header has a [username] and no
    [password], and a [Bearer] token neither. *)
Record credentials := mkCredentials {
  cred_username : option pystr;
  cred_password : option pystr
}.

Inductive request :=
| GetHome
| PostCheckout (car_model : option pystr) (license_plate : option pystr)
| GetSuccess (session_id : option pystr)
| GetCancel
| GetAdmin (authorization : option credentials).

(** Flask responses: a string body with a status ([return s] is status
    200, [return s, n] is status [n]), a redirect, a file attachment, a
    rendered template, or the 500 of an uncaught exception. *)
Inductive response :=
| RText (status : Z) (body : pystr) (headers : list (pystr * pystr))
| RRedirect (code : Z) (location : pystr)
| RAttachment (content : pystr)
| RTemplate (name : pystr)
| RServerError.

Definition status (r : response) : Z :=
  match r with
  | RText s _ _ => s
  | RRedirect c _ => c
  | RAttachment _ => 200
  | RTemplate _ => 200
  | RServerError => 500
  end.

(** What [create_checkout_session] does, in order. *)
Inductive event :=
| EvAdmission (allowed : bool)       (* booking_allowed() was called *)
| EvValidate (ok : bool)             (* the form fields were checked *)
| EvAppend (text : pystr)            (* text appended to reservations.csv *)
| EvPayment (req : checkout_request). (* stripe.checkout.Session.create(req) *)

(** ** CSV writing and timestamps *)

(** [csv.writer] with the default dialect: minimal quoting (a field holding
    a comma, a double quote, CR or LF is quoted), double quotes doubled,
    CR LF line terminator. *)
Definition csv_needs_quote (f : pystr) : bool :=
  existsb (fun c => (c =? 44) || (c =? 34) || (c =? 13) || (c =? 10)) f.

Definition csv_field (f : pystr) : pystr :=
  if csv_needs_quote f
  then 34 :: flat_map (fun c => if c =? 34 then [34; 34] else [c]) f ++ [34]
  else f.

Fixpoint csv_join (fs : list pystr) : pystr :=
  match fs with
  | [] => []
  | [f] => csv_field f
  | f :: r => csv_field f ++ 44 :: csv_join r
  end.

Definition csv_line (row : list pystr) : pystr :=
  match row with
  | [[]] => [34; 34; 13; 10]
  | _ => csv_join row ++ [13; 10]
  end.

(** Decimal digits of a natural number ([%Y] as glibc prints it). *)
Fixpoint dec_aux (fuel : nat) (n : Z) (acc : pystr) : pystr :=
  match fuel with
  | O => acc
  | S f => if n <? 10 then (48 + n) :: acc
           else dec_aux f (n / 10) ((48 + n mod 10) :: acc)
  end.

Definition dec (n : Z) : pystr := dec_aux 20 n [].

(** [%m], [%d], [%H], [%M], [%S]: two digits, zero padded. *)
Definition pad2 (n : Z) : pystr := [48 + n / 10; 48 + n mod 10].

(** [strftime] with format [%Y-%m-%d %H:%M:%S] *)
Definition strftime_ts (d : datetime) : pystr :=
  dec (year d) ++ [45] ++ pad2 (month d) ++ [45] ++ pad2 (day d) ++ [32] ++
  pad2 (hour (dt_clock d)) ++ [58] ++ pad2 (minute (dt_clock d)) ++ [58] ++
  pad2 (second (dt_clock d)).

Definition header_row : list pystr :=
  [s2c "Make"; s2c "License Plate"; s2c "Date and Time"].

Definition challenge_header : pystr * pystr :=
  (s2c "WWW-Authenticate", s2c "Basic realm=" ++ [34] ++ s2c "Login Required" ++ [34]).

(** ** werkzeug's [check_password_hash]

    As in werkzeug 2.3 and later: a hash with fewer than two [$] is
    rejected ([False]); otherwise the password is encoded before the
    method is looked at, so a [None] password raises [AttributeError]; an
    unknown method raises [ValueError]; and [hmac.compare_digest] raises
    [TypeError] on a non-ASCII stored digest.  The key derivation
    ([pbkdf2], [scrypt]) is the parameter [derive]: the digest, or [None]
    for an unknown method. *)
Module Werkzeug.

Fixpoint split_at (c : Z) (s : pystr) : option (pystr * pystr) :=
  match s with
  | [] => None
  | x :: r =>
      if x =? c then Some ([], r)
      else match split_at c r with Some (a, b) => Some (x :: a, b) | None => None end
  end.

Definition check_password_hash (derive : pystr -> pystr -> pystr -> option pystr)
    (pwhash : pystr) (password : option pystr) : option bool :=
  match split_at 36 pwhash with None => Some false | Some (method, rest) =>
  match split_at 36 rest with None => Some false | Some (salt, hashval) =>
  match password with None => None | Some p =>
  match derive method salt p with None => None | Some h =>
    if forallb (fun c => c <? 128) hashval then Some (pystr_eqb h hashval) else None
  end end end end.

End Werkzeug.

(** ** The application *)

Section App.

(** [json.loads], [time.fromisoformat] and werkzeug's [check_password_hash];
    [None] is an exception. *)
Variable json_loads : pystr -> option json.
Variable time_fromisoformat : pystr -> option pytime.
Variable check_password_hash : pystr -> option pystr -> option bool.

(** *** Python semantics used by [booking_allowed] *)

(** [w[key]]: a dict looks the key up (the last duplicate member wins, as
    [json.loads] builds the dict); a missing key raises [KeyError]; any
    other value raises [TypeError]. *)
Definition subscript (w : json) (key : pystr) : option json :=
  match w with
  | JObj ms =>
      match find (fun kv => pystr_eqb (fst kv) key) (rev ms) with
      | Some (_, v) => Some v
      | None => None
      end
  | _ => None
  end.

Fixpoint dedup_keys (seen : list pystr) (ks : list pystr) : list pystr :=
  match ks with
  | [] => []
  | k :: r => if existsb (pystr_eqb k) seen then dedup_keys seen r
              else k :: dedup_keys (k :: seen) r
  end.

(** [for w in windows]: a list yields its items, a dict its keys in first
    insertion order, a string its characters; anything else raises
    [TypeError]. *)
Definition py_iter (v : json) : option (list json) :=
  match v with
  | JArr l => Some l
  | JObj ms => Some (map JStr (dedup_keys [] (map fst ms)))
  | JStr s => Some (map (fun c => JStr [c]) s)
  | _ => None
  end.

(** [time.fromisoformat(v)]: a non-string raises [TypeError]. *)
Definition fromisoformat_value (v : json) : option pytime :=
  match v with
  | JStr s => time_fromisoformat s
  | _ => None
  end.

(** *** [booking_allowed] *)

(** One iteration of the loop body:
<<
            start = time.fromisoformat(w["start"])
            end = time.fromisoformat(w["end"])
            if start <= now <= end:
                return False
>>
    [None]: an exception; [Some true]: [return False]; [Some false]: the
    loop goes on.  The chained comparison stops after [start <= now] when it
    is false. *)
Definition window_step (w : json) (now : clock) : option bool :=
  match subscript w (s2c "start") with None => None | Some sv =>
  match fromisoformat_value sv with None => None | Some st =>
  match subscript w (s2c "end") with None => None | Some ev =>
  match fromisoformat_value ev with None => None | Some en =>
  match time_le_naive st now with
  | None => None
  | Some false => Some false
  | Some true => naive_le_time now en
  end end end end end.

(** The [for] loop: [None] if an exception escapes it, [Some b] if the
    function returns [b] (the [return True] after the loop included). *)
Fixpoint check_windows (ws : list json) (now : clock) : option bool :=
  match ws with
  | [] => Some true
  | w :: r =>
      match window_step w now with
      | None => None
      | Some true => Some false
      | Some false => check_windows r now
      end
  end.

(** [booking_allowed()], with [raw = os.getenv(BLACKOUT_WINDOWS)] and
    [now = datetime.now().time()]; the bare [except] turns every exception
    into [True]. *)
Definition booking_allowed (raw : option pystr) (now : clock) : bool :=
  match raw with
  | None => true
  | Some [] => true
  | Some s =>
      match json_loads s with
      | None => true
      | Some windows =>
          match py_iter windows with
          | None => true
          | Some ws =>
              match check_windows ws now with
              | None => true
              | Some b => b
              end
          end
      end
  end.

(** *** [create_checkout_session] *)

(** [not x] is false for a form value: present and non-empty. *)
Definition truthy (o : option pystr) : bool :=
  match o with Some (_ :: _) => true | _ => false end.

(** The arguments of [stripe.checkout.Session.create]. *)
Definition checkout_request_for (root car plate : pystr) : checkout_request :=
  {| payment_method_types := [s2c "card"];
     line_items :=
       [{| li_currency := s2c "usd";
           li_product_name := s2c "Parking for " ++ car ++ s2c " (" ++ plate ++ s2c ")";
           li_unit_amount := 1000;
           li_quantity := 1 |}];
     mode := s2c "payment";
     success_url := root ++ s2c "/success" ++ s2c "?session_id={CHECKOUT_SESSION_ID}";
     cancel_url := root ++ s2c "/cancel" |}.

(** The text the [with open(...)] block appends: the header row when the
    file did not exist or was empty, then the reservation row. *)
Definition appended_text (file : option pystr) (car plate : pystr) (stamp : datetime) : pystr :=
  let file_exists := match file with Some _ => true | None => false end in
  let size_zero := match file with Some c => (List.length c =? 0)%nat | None => false end in
  (if negb file_exists || size_zero then csv_line header_row else []) ++
  csv_line [car; plate; strftime_ts stamp].

(** The route: the response, the file system after it and what it did. *)
Definition create_checkout_session (cfg : config) (ext : externals)
    (car_model license_plate : option pystr) (w : fs) : response * fs * list event :=
  let allowed := booking_allowed (BLACKOUT_WINDOWS cfg) (now_time ext) in
  if negb allowed then
    (RText 403 (s2c "Parking is unavailable at this time.") [], w, [EvAdmission false])
  else
  match car_model, license_plate with
  | Some car, Some plate =>
    if negb (truthy car_model) || negb (truthy license_plate) then
      (RText 400 (s2c "Invalid input. Please enter both the car model and license plate.") [],
       w, [EvAdmission true; EvValidate false])
    else
    match open_append_error w with
    | Some (OpenRaises _) => (RServerError, w, [EvAdmission true; EvValidate true])
    | Some (WriteRaises n _) =>
      (* the file is open (and created); part of the text is on disk *)
      let text := appended_text (log_file w) car plate (now_stamp ext) in
      let content := match log_file w with Some c => c | None => [] end in
      let w' := {| log_file := Some (content ++ firstn n text);
                   open_append_error := open_append_error w;
                   read_error := read_error w;
                   root_log_file := root_log_file w |} in
      (RServerError, w', [EvAdmission true; EvValidate true; EvAppend (firstn n text)])
    | None =>
      let text := appended_text (log_file w) car plate (now_stamp ext) in
      let content := match log_file w with Some c => c | None => [] end in
      let w' := {| log_file := Some (content ++ text);
                   open_append_error := open_append_error w;
                   read_error := read_error w;
                   root_log_file := root_log_file w |} in
      let req := checkout_request_for (url_root ext) car plate in
      let tr := [EvAdmission true; EvValidate true; EvAppend text; EvPayment req] in
      match stripe_create ext req with
      | StripeSession url => (RRedirect 303 url, w', tr)
      | StripeError e => (RText 200 e [], w', tr)
      end
    end
  | _, _ =>
      (RText 400 (s2c "Invalid input. Please enter both the car model and license plate.") [],
       w, [EvAdmission true; EvValidate false])
  end.

(** *** [admin_view_reservations] *)

(** [send_file(RESERVATION_FILE, as_attachment=True)]: Flask joins the
    relative path to [app.root_path], while [open] in the checkout route
    resolves it against the working directory; the content of the file
    found there, or the [str] of the exception [send_file] raises. *)
Definition send_file (cfg : config) (w : fs) : pystr + pystr :=
  match read_error w with
  | Some e => inl e
  | None =>
      match (if pystr_eqb (cwd cfg) (root_path cfg) then log_file w else root_log_file w) with
      | Some c => inr c
      | None => inl (s2c "[Errno 2] No such file or directory: '" ++ root_path cfg ++
                     s2c "/reservations.csv'")
      end
  end.

(** The route; an exception that escapes it (one of [check_password_hash])
    is Flask's 500. *)
Definition admin_view_reservations (cfg : config) (auth : option credentials)
    (w : fs) : response :=
  match auth with
  | None => RText 401 (s2c "Login required") [challenge_header]
  | Some a =>
      (* auth.username != ADMIN_USERNAME or not check_password_hash(...) *)
      let username_differs :=
        match cred_username a with
        | None => true
        | Some u => negb (pystr_eqb u (ADMIN_USERNAME cfg))
        end in
      if username_differs
      then RText 401 (s2c "Could not verify login") [challenge_header]
      else match check_password_hash (ADMIN_PASSWORD_HASH cfg) (cred_password a) with
           | None => RServerError
           | Some false => RText 401 (s2c "Could not verify login") [challenge_header]
           | Some true =>
               match send_file cfg w with
               | inl e => RText 200 e []
               | inr c => RAttachment c
               end
           end
  end.

(** *** The router over the five routes *)
Definition handle (cfg : config) (ext : externals) (r : request) (w : fs)
    : response * fs * list event :=
  match r with
  | GetHome => (RTemplate (s2c "index.html"), w, [])
  | PostCheckout car plate => create_checkout_session cfg ext car plate w
  | GetSuccess _ => (RTemplate (s2c "success.html"), w, [])
  | GetCancel => (RText 200 (s2c "Payment canceled!") [], w, [])
  | GetAdmin auth => (admin_view_reservations cfg auth w, w, [])
  end.

End App.

(** ** Vocabulary of the properties *)

(** The two times of a window, when both keys are there and parse. *)
Definition window_times (fromiso : pystr -> option pytime) (w : json)
    : option (pytime * pytime) :=
  match subscript w (s2c "start") with None => None | Some sv =>
  match fromisoformat_value fromiso sv with None => None | Some st =>
  match subscript w (s2c "end") with None => None | Some ev =>
  match fromisoformat_value fromiso ev with None => None | Some en =>
    Some (st, en)
  end end end end.

(** A window of a well-formed configuration: both keys, both times parse. *)
Definition wellformed_window (fromiso : pystr -> option pytime) (w : json) : Prop :=
  exists st en, window_times fromiso w = Some (st, en).

(** The same, with both times naive (no UTC offset). *)
Definition naive_window (fromiso : pystr -> option pytime) (w : json) : Prop :=
  exists st en, window_times fromiso w = Some (st, en) /\
                t_utcoffset st = None /\ t_utcoffset en = None.

(** [start <= now <= end] on the wall-clock fields. *)
Definition in_window (st en : pytime) (now : clock) : bool :=
  clock_le (t_clock st) now && clock_le now (t_clock en).

(** [old] is a prefix of [new]: nothing written before was changed. *)
Definition log_extends (old new : option pystr) : Prop :=
  match old, new with
  | None, _ => True
  | Some c, Some c' => exists t, c' = c ++ t
  | Some _, None => False
  end.

Definition is_digit_code (c : Z) : bool := (48 <=? c) && (c <=? 57).

(** The shape [YYYY-MM-DD HH:MM:SS]. *)
Definition timestamp_shape (s : pystr) : bool :=
  match s with
  | [y1; y2; y3; y4; 45; m1; m2; 45; d1; d2; 32; h1; h2; 58; i1; i2; 58; s1; s2] =>
      forallb is_digit_code [y1; y2; y3; y4; m1; m2; d1; d2; h1; h2; i1; i2; s1; s2]
  | _ => false
  end.

(** The three parts of a route's result. *)
Definition resp_of (x : response * fs * list event) : response := fst (fst x).
Definition fs_of (x : response * fs * list event) : fs := snd (fst x).
Definition trace_of (x : response * fs * list event) : list event := snd x.

(** The bytes of the log, a missing file read as empty. *)
Definition file_text (f : option pystr) : pystr :=
  match f with Some c => c | None => [] end.

(** A [datetime] with its fields in range and a four-digit year. *)
Definition valid_stamp (d : datetime) : Prop :=
  (1000 <= year d <= 9999) /\ (1 <= month d <= 12) /\ (1 <= day d <= 31) /\
  TimeModel.clock_in_range (dt_clock d) = true.

(** A sequence of requests, each with the configuration and the outside
    world of its moment, handled one after the other. *)
Fixpoint run (loads : pystr -> option json) (fromiso : pystr -> option pytime)
    (chk : pystr -> option pystr -> option bool) (steps : list (config * externals * request)) (w : fs) : fs :=
  match steps with
  | [] => w
  | (cfg, ext, r) :: rest => run loads fromiso chk rest (fs_of (handle loads fromiso chk cfg ext r w))
  end.

(** The header row the [with] block writes first: when the log is missing
    or empty. *)
Definition header_text (f : option pystr) : pystr :=
  match f with Some (_ :: _) => [] | _ => csv_line header_row end.

(** A reservation row: car model, plate and a [YYYY-MM-DD HH:MM:SS]
    timestamp. *)
Definition reservation_row (r : list pystr) : Prop :=
  exists c p t, r = [c; p; t] /\ timestamp_shape t = true.

(** The log as the application writes it: missing, empty, or the header
    line followed by reservation rows. *)
Definition log_wellformed (f : option pystr) : Prop :=
  f = None \/ f = Some [] \/
  exists rows, Forall reservation_row rows /\
    f = Some (csv_line header_row ++ List.concat (map csv_line rows)).

(** A reader for the CSV the log holds (RFC 4180, the dialect [csv.writer]
    writes by default): fields separated by commas, a field in double
    quotes with its quotes doubled, records ended by CRLF. *)
Fixpoint read_unquoted (s : pystr) : pystr * pystr :=
  match s with
  | [] => ([], [])
  | c :: r =>
      if (c =? 44) || (c =? 13) then ([], s)
      else let (f, t) := read_unquoted r in (c :: f, t)
  end.

Fixpoint read_quoted (s : pystr) : option (pystr * pystr) :=
  match s with
  | [] => None
  | c :: r =>
      if c =? 34 then
        match r with
        | c2 :: r' =>
            if c2 =? 34 then
              match read_quoted r' with Some (f, t) => Some (34 :: f, t) | None => None end
            else Some ([], r)
        | [] => Some ([], [])
        end
      else match read_quoted r with Some (f, t) => Some (c :: f, t) | None => None end
  end.

Definition read_field (s : pystr) : option (pystr * pystr) :=
  match s with
  | 34 :: r => read_quoted r
  | _ => Some (read_unquoted s)
  end.

Fixpoint read_fields (fuel : nat) (s : pystr) : option (list pystr * pystr) :=
  match fuel with
  | O => None
  | S k =>
      match read_field s with
      | None => None
      | Some (f, r) =>
          match r with
          | 44 :: r' =>
              match read_fields k r' with Some (fs, t) => Some (f :: fs, t) | None => None end
          | 13 :: 10 :: r' => Some ([f], r')
          | _ => None
          end
      end
  end.

(** One record, and the rest of the text after its CRLF. *)
Definition read_record (s : pystr) : option (list pystr * pystr) :=
  read_fields (List.length s) s.

Fixpoint read_rows (fuel : nat) (s : pystr) : option (list (list pystr)) :=
  match s with
  | [] => Some []
  | _ =>
      match fuel with
      | O => None
      | S k =>
          match read_record s with
          | None => None
          | Some (row, t) =>
              match read_rows k t with Some rows => Some (row :: rows) | None => None end
          end
      end
  end.

(** All the records of a file. *)
Definition read_csv (s : pystr) : option (list (list pystr)) :=
  read_rows (List.length s) s.

(** ** The application with the models of the libraries *)

Definition booking_allowed_py : option pystr -> clock -> bool :=
  booking_allowed JsonModel.json_loads TimeModel.time_fromisoformat.

Definition noon : clock := mkClock 12 0 0 0.

(** A configuration whose second entry has no [end] key, after a window
    that covers the whole day. *)
Definition cfg_partly_malformed : pystr :=
  js "[{'start':'00:00','end':'23:59'},{'start':'08:00'}]".

(** A configuration whose window start carries a UTC offset. *)
Definition cfg_offset_window : pystr :=
  js "[{'start':'00:00+00:00','end':'23:59'}]".

(** A configuration with a window around the clock. *)
Definition cfg_all_day : config :=
  mkConfig (Some (js "[{'start':'00:00','end':'23:59'}]")) (s2c "default_user")
           (s2c "pbkdf2:sha256:600000$salt$hash") (s2c "/srv/app")
           (s2c "/srv/app").

(** The same, with the server started from another directory. *)
Definition cfg_elsewhere : config :=
  mkConfig None (s2c "default_user") (s2c "pbkdf2:sha256:600000$salt$hash") (s2c "/srv/app")
           (s2c "/home/deploy").

(** A configuration without blackout windows. *)
Definition cfg_open : config :=
  mkConfig None (s2c "default_user") (s2c "pbkdf2:sha256:600000$salt$hash") (s2c "/srv/app")
           (s2c "/srv/app").

Definition ext_noon (answer : stripe_result) : externals :=
  mkExternals noon (mkDatetime 2026 10 18 noon) (s2c "http://localhost:5000")
              (fun _ => answer).

Definition fs_empty : fs := mkFs None None None None.

(** The log holds the header and the disk fills up after 10 more code
    units. *)
Definition fs_disk_full : fs :=
  mkFs (Some (s2c "Make,License Plate,Date and Time" ++ [13; 10]))
       (Some (WriteRaises 10 (s2c "[Errno 28] No space left on device"))) None None.

(** The log exists but cannot be opened for writing. *)
Definition fs_read_only : fs :=
  mkFs (Some []) (Some (OpenRaises (s2c "[Errno 13] Permission denied: 'reservations.csv'")))
       None None.

Definition create_checkout_session_py :=
  create_checkout_session JsonModel.json_loads TimeModel.time_fromisoformat.
Lemma pystr_eqb_eq : forall a b, pystr_eqb a b = true <-> a = b.
Proof.
  induction a as [|x a IH]; destruct b as [|y b]; simpl;
    split; intro H; try discriminate; auto.
  - apply andb_prop in H as [H1 H2]. apply Z.eqb_eq in H1.
    apply IH in H2. subst; reflexivity.
  - injection H as -> ->. rewrite Z.eqb_refl. simpl. apply IH. reflexivity.
Qed.

Example json_loads_window :
  JsonModel.json_loads (js "[{'start': '00:00', 'end':'06:00'}]") =
  Some (JArr [JObj [(s2c "start", JStr (s2c "00:00")); (s2c "end", JStr (s2c "06:00"))]]).
Proof. reflexivity. Qed.

Example fromisoformat_hh_mm :
  TimeModel.time_fromisoformat (s2c "06:30") = Some (mkTime (mkClock 6 30 0 0) None).
Proof. reflexivity. Qed.

Example fromisoformat_utc :
  TimeModel.time_fromisoformat (s2c "00:00+00:00") = Some (mkTime (mkClock 0 0 0 0) (Some 0)).
Proof. reflexivity. Qed.

Example fromisoformat_bad :
  TimeModel.time_fromisoformat (s2c "6am") = None.
Proof. reflexivity. Qed.

Example strftime_example :
  strftime_ts (mkDatetime 2026 3 7 (mkClock 9 5 0 123)) = s2c "2026-03-07 09:05:00".
Proof. reflexivity. Qed.

Example csv_line_example :
  csv_line [s2c "Honda Civic"; s2c "ABC123"; s2c "a,b"] =
  s2c "Honda Civic,ABC123," ++ [34] ++ s2c "a,b" ++ [34; 13; 10].
Proof. reflexivity. Qed.

Example booking_denied_at_three :
  booking_allowed_py (Some (js "[{'start':'00:00','end':'06:00'}]")) (mkClock 3 0 0 0) = false.
Proof. reflexivity. Qed.

Example booking_allowed_at_noon :
  booking_allowed_py (Some (js "[{'start':'00:00','end':'06:00'}]")) noon = true.
Proof. reflexivity. Qed.

Example booking_allowed_bad_json :
  booking_allowed_py (Some (js "[{'start':'00:00','end':'06:00'}")) (mkClock 3 0 0 0) = true.
Proof. reflexivity. Qed.

(** ** Lemmas on [booking_allowed] *)

Lemma clock_le_antisym : forall a b, clock_le a b && clock_le b a = true <-> a = b.
Proof.
  intros [h1 m1 s1 u1] [h2 m2 s2 u2]; unfold clock_le; simpl.
  rewrite !Bool.andb_true_iff, !Bool.orb_true_iff, !Bool.andb_true_iff,
    !Bool.orb_true_iff, !Bool.andb_true_iff, !Bool.orb_true_iff, !Bool.andb_true_iff,
    !Z.ltb_lt, !Z.eqb_eq, !Z.leb_le.
  split.
  - intros H. assert (h1 = h2 /\ m1 = m2 /\ s1 = s2 /\ u1 = u2) as (-> & -> & -> & ->)
      by lia. reflexivity.
  - intros H. injection H as -> -> -> ->. lia.
Qed.

Section BookingLemmas.
Variable fromiso : pystr -> option pytime.

Lemma window_step_true : forall w now,
  window_step fromiso w now = Some true <->
  exists st en, window_times fromiso w = Some (st, en) /\
    t_utcoffset st = None /\ t_utcoffset en = None /\ in_window st en now = true.
Proof.
  intros w now; unfold window_step, window_times, time_le_naive, naive_le_time, in_window.
  destruct (subscript w (s2c "start")) as [sv|]; [|split; [discriminate|intros (? & ? & ? & _); discriminate]].
  destruct (fromisoformat_value fromiso sv) as [st|]; [|split; [discriminate|intros (? & ? & ? & _); discriminate]].
  destruct (subscript w (s2c "end")) as [ev|]; [|split; [discriminate|intros (? & ? & ? & _); discriminate]].
  destruct (fromisoformat_value fromiso ev) as [en|]; [|split; [discriminate|intros (? & ? & ? & _); discriminate]].
  split.
  - destruct (t_utcoffset st) eqn:Hs; [discriminate|].
    destruct (clock_le (t_clock st) now) eqn:Hle; [|discriminate].
    destruct (t_utcoffset en) eqn:He; [discriminate|].
    intros H; injection H as H. exists st, en. rewrite Hle, H. auto.
  - intros (st' & en' & H & Hs & He & Hin); injection H as -> ->.
    rewrite Hs, He. apply andb_prop in Hin as [H1 H2]. rewrite H1, H2. reflexivity.
Qed.

Lemma window_step_naive : forall w st en now,
  window_times fromiso w = Some (st, en) ->
  t_utcoffset st = None -> t_utcoffset en = None ->
  window_step fromiso w now = Some (in_window st en now).
Proof.
  intros w st en now H Hs He; unfold window_times in H; unfold window_step.
  destruct (subscript w (s2c "start")) as [sv|]; [|discriminate].
  destruct (fromisoformat_value fromiso sv) as [st'|]; [|discriminate].
  destruct (subscript w (s2c "end")) as [ev|]; [|discriminate].
  destruct (fromisoformat_value fromiso ev) as [en'|]; [|discriminate].
  injection H as -> ->. unfold time_le_naive, naive_le_time, in_window.
  rewrite Hs, He. destruct (clock_le (t_clock st) now); reflexivity.
Qed.

Lemma check_windows_false : forall ws now,
  check_windows fromiso ws now = Some false ->
  exists pre w post, ws = pre ++ w :: post /\
    Forall (fun p => window_step fromiso p now = Some false) pre /\
    window_step fromiso w now = Some true.
Proof.
  induction ws as [|w ws IH]; intros now H; simpl in H; [discriminate|].
  destruct (window_step fromiso w now) as [[|]|] eqn:Hw; try discriminate.
  - exists [], w, ws. auto.
  - destruct (IH now H) as (pre & w' & post & -> & Hpre & Hw').
    exists (w :: pre), w', post. simpl. auto.
Qed.

Lemma check_windows_naive : forall ws now,
  Forall (naive_window fromiso) ws ->
  check_windows fromiso ws now =
  Some (negb (existsb (fun w => match window_times fromiso w with
                                | Some (st, en) => in_window st en now
                                | None => false end) ws)).
Proof.
  induction ws as [|w ws IH]; intros now Hf; [reflexivity|].
  inversion Hf as [|? ? (st & en & Ht & Hs & He) Hf']; subst; simpl.
  rewrite (window_step_naive w st en now Ht Hs He), Ht.
  destruct (in_window st en now); simpl; [reflexivity|]. apply IH; assumption.
Qed.

Lemma check_windows_skip : forall pre ws now,
  Forall (fun p => window_step fromiso p now = Some false) pre ->
  check_windows fromiso (pre ++ ws) now = check_windows fromiso ws now.
Proof.
  intros pre ws now Hpre. induction Hpre as [|p pre Hp _ IH]; [reflexivity|].
  cbn [app check_windows]. rewrite Hp. exact IH.
Qed.

(** [start <= now <= end] raises [TypeError] when [start] has a UTC
    offset, or when [end] has one and [start <= now] was evaluated true. *)
Lemma window_step_raises : forall w st en now,
  window_times fromiso w = Some (st, en) ->
  t_utcoffset st <> None \/ (t_utcoffset en <> None /\ clock_le (t_clock st) now = true) ->
  window_step fromiso w now = None.
Proof.
  intros w st en now H Hr; unfold window_times in H; unfold window_step.
  destruct (subscript w (s2c "start")) as [sv|]; [|discriminate].
  destruct (fromisoformat_value fromiso sv) as [st'|]; [|discriminate].
  destruct (subscript w (s2c "end")) as [ev|]; [|discriminate].
  destruct (fromisoformat_value fromiso ev) as [en'|]; [|discriminate].
  injection H as -> ->. unfold time_le_naive, naive_le_time.
  destruct (t_utcoffset st) eqn:Hs; [reflexivity|].
  destruct Hr as [Hr | [He Hle]]; [congruence|].
  rewrite Hle. destruct (t_utcoffset en); [reflexivity|congruence].
Qed.

End BookingLemmas.

(** ** Claims on the admission check *)

(** [C4]: with [BLACKOUT_WINDOWS] unset or empty, [booking_allowed]
    returns [True] at every time of day, whatever the libraries do. *)
Theorem booking_allowed_without_config :
  forall (loads : pystr -> option json) (fromiso : pystr -> option pytime)
         (raw : option pystr) (now : clock),
  raw = None \/ raw = Some [] -> booking_allowed loads fromiso raw now = true.
Proof.
  intros loads fromiso raw now [-> | ->]; reflexivity.
Qed.

Lemma booking_allowed_without_config_witness :
  booking_allowed_py None noon = true /\ booking_allowed_py (Some []) noon = true.
Proof.
  split; apply booking_allowed_without_config; [left | right]; reflexivity.
Defined.

(** [C2] (amended): a configuration that [json.loads] rejects, or that
    parses to a value [for] cannot iterate, makes [booking_allowed] return
    [True], and so does an entry whose loop body raises (a missing key, a
    time that does not parse, an offset-aware comparison) when the entries
    before it ran without covering [now].  Whenever it returns [False], the
    configuration parsed to an iterable whose entries before some window
    [w] all ran through the loop body without an exception and without
    covering [now], and [w] itself has both keys, two naive times and
    [start <= now <= end]; conversely such a window, met before any
    entry that raises, denies admission whatever follows it.  So a
    malformed entry never denies admission by itself: only a well-formed
    window met before it in the list does. *)
Theorem booking_allowed_fail_open :
  forall (loads : pystr -> option json) (fromiso : pystr -> option pytime)
         (raw : option pystr) (now : clock),
  (forall s, raw = Some s -> loads s = None ->
             booking_allowed loads fromiso raw now = true) /\
  (forall s v, raw = Some s -> s <> [] -> loads s = Some v -> py_iter v = None ->
             booking_allowed loads fromiso raw now = true) /\
  (forall s v pre w post, raw = Some s -> s <> [] -> loads s = Some v ->
     py_iter v = Some (pre ++ w :: post) ->
     Forall (fun p => window_step fromiso p now = Some false) pre ->
     window_step fromiso w now = None ->
     booking_allowed loads fromiso raw now = true) /\
  (forall s v pre w post st en, raw = Some s -> s <> [] -> loads s = Some v ->
     py_iter v = Some (pre ++ w :: post) ->
     Forall (fun p => window_step fromiso p now = Some false) pre ->
     window_times fromiso w = Some (st, en) ->
     t_utcoffset st = None -> t_utcoffset en = None -> in_window st en now = true ->
     booking_allowed loads fromiso raw now = false) /\
  (booking_allowed loads fromiso raw now = false ->
   exists s v pre w post st en,
     raw = Some s /\ loads s = Some v /\ py_iter v = Some (pre ++ w :: post) /\
     Forall (fun p => window_step fromiso p now = Some false) pre /\
     window_times fromiso w = Some (st, en) /\
     t_utcoffset st = None /\ t_utcoffset en = None /\ in_window st en now = true).
Proof.
  intros loads fromiso raw now; split; [|split; [|split; [|split]]].
  - intros s -> Hl. unfold booking_allowed. destruct s as [|c s']; [reflexivity|].
    rewrite Hl. reflexivity.
  - intros s v -> Hs Hl Hi. unfold booking_allowed. destruct s as [|c s']; [congruence|].
    rewrite Hl, Hi. reflexivity.
  - intros s v pre w post -> Hs Hl Hi Hpre Hw. unfold booking_allowed.
    destruct s as [|c s']; [congruence|].
    rewrite Hl, Hi, (check_windows_skip fromiso pre _ now Hpre). cbn [check_windows].
    rewrite Hw. reflexivity.
  - intros s v pre w post st en -> Hs Hl Hi Hpre Ht Hst Hen Hin. unfold booking_allowed.
    destruct s as [|c s']; [congruence|].
    rewrite Hl, Hi, (check_windows_skip fromiso pre _ now Hpre). cbn [check_windows].
    rewrite (window_step_naive fromiso w st en now Ht Hst Hen), Hin. reflexivity.
  - intros H. destruct raw as [s|]; [|discriminate].
    unfold booking_allowed in H. destruct s as [|c s']; [discriminate|].
    destruct (loads (c :: s')) as [v|] eqn:Hl; [|discriminate].
    destruct (py_iter v) as [ws|] eqn:Hi; [|discriminate].
    destruct (check_windows fromiso ws now) as [b|] eqn:Hc; [|discriminate].
    subst b.
    destruct (check_windows_false _ _ _ Hc) as (pre & w & post & -> & Hpre & Hw).
    apply window_step_true in Hw as (st & en & Ht & Hs & He & Hin).
    exists (c :: s'), v, pre, w, post, st, en. repeat split; assumption.
Qed.

Lemma booking_allowed_fail_open_witness :
  booking_allowed_py (Some (js "[{'start':'00:00',")) noon = true /\
  booking_allowed_py (Some (js "[{'start':'08:00'},{'start':'00:00','end':'23:59'}]")) noon = true /\
  booking_allowed_py (Some cfg_partly_malformed) noon = false.
Proof.
  unfold booking_allowed_py.
  split; [|split].
  - apply (proj1 (booking_allowed_fail_open JsonModel.json_loads
                    TimeModel.time_fromisoformat _ noon) (js "[{'start':'00:00',"));
      reflexivity.
  - eapply (proj1 (proj2 (proj2 (booking_allowed_fail_open JsonModel.json_loads
                    TimeModel.time_fromisoformat _ noon)))
              (js "[{'start':'08:00'},{'start':'00:00','end':'23:59'}]") _ []);
      [reflexivity | discriminate | reflexivity | reflexivity | constructor | reflexivity].
  - eapply (proj1 (proj2 (proj2 (proj2 (booking_allowed_fail_open JsonModel.json_loads
                    TimeModel.time_fromisoformat _ noon))))
              cfg_partly_malformed _ []);
      [reflexivity | discriminate | reflexivity | reflexivity | constructor
      | reflexivity | reflexivity | reflexivity | reflexivity].
Defined.

(** [C2] fails as stated: in [cfg_partly_malformed] the second entry has no
    [end] key, yet at noon the first window is met first and admission is
    denied. *)
Lemma booking_allowed_malformed_denies :
  (exists w1 w2, JsonModel.json_loads cfg_partly_malformed = Some (JArr [w1; w2]) /\
                 subscript w2 (s2c "end") = None) /\
  booking_allowed_py (Some cfg_partly_malformed) noon = false.
Proof.
  split; [eexists _, _; split; reflexivity | reflexivity].
Qed.

(** [C3] (amended): for a configuration that parses to a list of windows
    each with a [start] and an [end] that parse to naive times (no UTC
    offset), admission is denied exactly when some window has
    [start <= now <= end] on the wall clock, both ends included; a single
    window with [start = end], naive, denies exactly at that instant.  A
    time with a UTC offset is not compared but raises [TypeError]: a start
    with an offset, or an end with one once [start <= now] holds, in a
    window reached by the loop, makes the check fail open and admit,
    whatever the wall clock says and whatever windows follow. *)
Theorem booking_allowed_naive_windows :
  forall (loads : pystr -> option json) (fromiso : pystr -> option pytime)
         (s : pystr) (ws : list json) (now : clock),
  s <> [] -> loads s = Some (JArr ws) ->
  (Forall (naive_window fromiso) ws ->
   (booking_allowed loads fromiso (Some s) now = false <->
    exists w st en, In w ws /\ window_times fromiso w = Some (st, en) /\
                    in_window st en now = true)) /\
  (forall w t, ws = [w] -> window_times fromiso w = Some (t, t) -> t_utcoffset t = None ->
   (booking_allowed loads fromiso (Some s) now = false <-> t_clock t = now)) /\
  (forall pre w post st en, ws = pre ++ w :: post ->
   Forall (fun p => window_step fromiso p now = Some false) pre ->
   window_times fromiso w = Some (st, en) ->
   t_utcoffset st <> None \/ (t_utcoffset en <> None /\ clock_le (t_clock st) now = true) ->
   booking_allowed loads fromiso (Some s) now = true).
Proof.
  intros loads fromiso s ws now Hs Hl.
  assert (Hb : Forall (naive_window fromiso) ws ->
               booking_allowed loads fromiso (Some s) now =
               negb (existsb (fun w => match window_times fromiso w with
                                       | Some (st, en) => in_window st en now
                                       | None => false end) ws)).
  { intros Hf. unfold booking_allowed. destruct s as [|c s']; [congruence|].
    rewrite Hl. cbn [py_iter]. rewrite (check_windows_naive fromiso ws now Hf).
    reflexivity. }
  split; [|split].
  - intros Hf. rewrite (Hb Hf), Bool.negb_false_iff, existsb_exists. split.
    + intros (w & Hin & Hw).
      destruct (window_times fromiso w) as [[st en]|] eqn:E; [|discriminate].
      exists w, st, en. auto.
    + intros (w & st & en & Hin & E & Hw). exists w. rewrite E. auto.
  - intros w t -> E Ht.
    rewrite Hb by (constructor; [exists t, t; auto | constructor]).
    simpl. rewrite E, Bool.orb_false_r,
      Bool.negb_false_iff. unfold in_window. apply clock_le_antisym.
  - intros pre w post st en -> Hpre E Hr. unfold booking_allowed.
    destruct s as [|c s']; [congruence|].
    rewrite Hl. cbn [py_iter]. rewrite (check_windows_skip fromiso pre _ now Hpre).
    cbn [check_windows]. rewrite (window_step_raises fromiso w st en now E Hr). reflexivity.
Qed.

Lemma booking_allowed_naive_windows_witness :
  booking_allowed_py (Some (js "[{'start':'06:00','end':'06:00'}]")) (mkClock 6 0 0 0) = false /\
  booking_allowed_py (Some (js "[{'start':'13:00','end':'14:00'},{'start':'00:00+00:00','end':'23:59'},{'start':'00:00','end':'23:59'}]")) noon = true.
Proof.
  unfold booking_allowed_py. split.
  - destruct (booking_allowed_naive_windows JsonModel.json_loads TimeModel.time_fromisoformat
                (js "[{'start':'06:00','end':'06:00'}]")
                [JObj [(s2c "start", JStr (s2c "06:00")); (s2c "end", JStr (s2c "06:00"))]]
                (mkClock 6 0 0 0)) as [_ [Hdeg _]].
    + discriminate.
    + reflexivity.
    + apply (Hdeg _ (mkTime (mkClock 6 0 0 0) None) eq_refl eq_refl eq_refl). reflexivity.
  - eapply (proj2 (proj2 (booking_allowed_naive_windows JsonModel.json_loads
              TimeModel.time_fromisoformat
              (js "[{'start':'13:00','end':'14:00'},{'start':'00:00+00:00','end':'23:59'},{'start':'00:00','end':'23:59'}]")
              _ noon ltac:(discriminate) eq_refl))
              [JObj [(s2c "start", JStr (s2c "13:00")); (s2c "end", JStr (s2c "14:00"))]]);
      [reflexivity | constructor; [reflexivity | constructor] | reflexivity |].
    left; discriminate.
Defined.

(** [C3] fails as stated: [cfg_offset_window] is a list of one window
    whose two times parse, and noon lies between them on the wall clock,
    yet [start <= now] raises [TypeError] (aware against naive) and the
    check fails open. *)
Lemma booking_allowed_offset_window :
  (exists w st en, JsonModel.json_loads cfg_offset_window = Some (JArr [w]) /\
     window_times TimeModel.time_fromisoformat w = Some (st, en) /\
     in_window st en noon = true) /\
  booking_allowed_py (Some cfg_offset_window) noon = true.
Proof.
  split; [do 3 eexists; split; [reflexivity | split; reflexivity] | reflexivity].
Qed.

(** ** Claims on the reservation route *)

(** [C1] (amended): the admission check runs first, and the fields are
    validated only after it admits.  While a blackout window is active,
    every submission, valid or not, gets 403 with the file system left as
    it was and nothing done after the check.  Otherwise a submission with
    an empty or missing [car_model] or [license_plate] gets 400, again
    without an append or a payment call.  In every run the first event is
    the admission check, and the validation comes right after it when,
    and only when, the check admitted. *)
Theorem create_checkout_session_invalid_input :
  forall loads fromiso cfg ext car plate w,
  let allowed := booking_allowed loads fromiso (BLACKOUT_WINDOWS cfg) (now_time ext) in
  let x := create_checkout_session loads fromiso cfg ext car plate w in
  (allowed = false ->
   x = (RText 403 (s2c "Parking is unavailable at this time.") [], w, [EvAdmission false])) /\
  (truthy car = false \/ truthy plate = false ->
   x = if allowed
       then (RText 400 (s2c "Invalid input. Please enter both the car model and license plate.") [],
             w, [EvAdmission true; EvValidate false])
       else (RText 403 (s2c "Parking is unavailable at this time.") [], w, [EvAdmission false])) /\
  (exists rest, trace_of x = EvAdmission allowed :: rest /\
     (allowed = false -> rest = []) /\
     (allowed = true -> exists rest', rest = EvValidate (truthy car && truthy plate) :: rest')).
Proof.
  intros loads fromiso cfg ext car plate w allowed x. subst allowed x.
  unfold create_checkout_session.
  destruct (booking_allowed loads fromiso (BLACKOUT_WINDOWS cfg) (now_time ext)); cbn [negb].
  2:{ split; [intros _; reflexivity|]. split; [intros _; reflexivity|].
      exists []. split; [reflexivity|]. split; [intros _; reflexivity | discriminate]. }
  split; [discriminate|]. split.
  - intros H. destruct car as [[|c car]|], plate as [[|p plate]|]; try reflexivity.
    destruct H; discriminate.
  - destruct car as [[|c0 c']|], plate as [[|p0 p']|]; cbn [truthy negb orb andb];
      try (eexists; split; [reflexivity | split; [discriminate | intros _; eexists; reflexivity]]).
    destruct (open_append_error w) as [[e|n e]|]; cbv zeta;
      [| | destruct (stripe_create ext _)];
      (eexists; split; [reflexivity | split; [discriminate | intros _; eexists; reflexivity]]).
Qed.

Lemma create_checkout_session_invalid_input_witness :
  status (resp_of (create_checkout_session_py cfg_open (ext_noon (StripeSession []))
                     (Some []) (Some (s2c "ABC123")) fs_empty)) = 400 /\
  create_checkout_session_py cfg_all_day (ext_noon (StripeSession []))
    (Some (s2c "Civic")) (Some (s2c "ABC123")) fs_empty =
  (RText 403 (s2c "Parking is unavailable at this time.") [], fs_empty, [EvAdmission false]).
Proof.
  unfold create_checkout_session_py. split.
  - rewrite (proj1 (proj2 (create_checkout_session_invalid_input _ _ cfg_open _ (Some [])
               (Some (s2c "ABC123")) fs_empty)) (or_introl eq_refl)).
    reflexivity.
  - apply (proj1 (create_checkout_session_invalid_input _ _ cfg_all_day _ (Some (s2c "Civic"))
               (Some (s2c "ABC123")) fs_empty)).
    reflexivity.
Defined.

(** [C1] fails as stated: with a window around the clock, a submission
    whose [car_model] is empty gets 403 from the admission check and the
    fields are never validated. *)
Lemma create_checkout_session_admission_first :
  create_checkout_session_py cfg_all_day (ext_noon (StripeSession [])) (Some [])
    (Some (s2c "ABC123")) fs_empty =
  (RText 403 (s2c "Parking is unavailable at this time.") [], fs_empty, [EvAdmission false]).
Proof. reflexivity. Qed.

(** *** How the route runs *)

Section CheckoutRuns.
Variables (loads : pystr -> option json) (fromiso : pystr -> option pytime).
Variables (cfg : config) (ext : externals).

(** An admitted, valid submission whose log opens: append, then pay. *)
Lemma create_checkout_session_admitted : forall c p w,
  booking_allowed loads fromiso (BLACKOUT_WINDOWS cfg) (now_time ext) = true ->
  c <> [] -> p <> [] -> open_append_error w = None ->
  create_checkout_session loads fromiso cfg ext (Some c) (Some p) w =
  let text := appended_text (log_file w) c p (now_stamp ext) in
  let req := checkout_request_for (url_root ext) c p in
  let w' := mkFs (Some (file_text (log_file w) ++ text)) None (read_error w) (root_log_file w) in
  let tr := [EvAdmission true; EvValidate true; EvAppend text; EvPayment req] in
  match stripe_create ext req with
  | StripeSession url => (RRedirect 303 url, w', tr)
  | StripeError e => (RText 200 e [], w', tr)
  end.
Proof.
  intros c p w Ha Hc Hp Ho.
  unfold create_checkout_session. rewrite Ha.
  destruct c as [|c0 c']; [congruence|]. destruct p as [|p0 p']; [congruence|].
  cbn [negb truthy orb]. rewrite Ho. reflexivity.
Qed.

(** An admitted, valid submission whose [with] block raises after [n]
    code units: a 500, and the log keeps that prefix of the text. *)
Lemma create_checkout_session_write_fails : forall c p w n e,
  booking_allowed loads fromiso (BLACKOUT_WINDOWS cfg) (now_time ext) = true ->
  c <> [] -> p <> [] -> open_append_error w = Some (WriteRaises n e) ->
  let text := appended_text (log_file w) c p (now_stamp ext) in
  create_checkout_session loads fromiso cfg ext (Some c) (Some p) w =
  (RServerError,
   mkFs (Some (file_text (log_file w) ++ firstn n text)) (Some (WriteRaises n e))
        (read_error w) (root_log_file w),
   [EvAdmission true; EvValidate true; EvAppend (firstn n text)]).
Proof.
  intros c p w n e Ha Hc Hp Ho text.
  unfold create_checkout_session. rewrite Ha.
  destruct c as [|c0 c']; [congruence|]. destruct p as [|p0 p']; [congruence|].
  cbn [negb truthy orb]. rewrite Ho. reflexivity.
Qed.

(** Every other submission leaves the file system as it was: not
    admitted, a field empty or missing, or [open] raising. *)
Lemma create_checkout_session_unchanged : forall car plate w,
  booking_allowed loads fromiso (BLACKOUT_WINDOWS cfg) (now_time ext) = false \/
  truthy car = false \/ truthy plate = false \/
  (exists e, open_append_error w = Some (OpenRaises e)) ->
  fs_of (create_checkout_session loads fromiso cfg ext car plate w) = w.
Proof.
  intros car plate w H. unfold create_checkout_session.
  destruct (booking_allowed loads fromiso (BLACKOUT_WINDOWS cfg) (now_time ext)) eqn:Ha;
    [|reflexivity].
  destruct car as [[|c0 c']|], plate as [[|p0 p']|]; try reflexivity.
  cbn [negb truthy orb].
  destruct H as [H|[H|[H|(e & H)]]]; try discriminate. rewrite H. reflexivity.
Qed.

(** A payment call happens only on the admitted, valid path. *)
Lemma create_checkout_session_payment : forall car plate w req,
  In (EvPayment req) (trace_of (create_checkout_session loads fromiso cfg ext car plate w)) ->
  exists c p, car = Some c /\ plate = Some p /\ c <> [] /\ p <> [] /\
    booking_allowed loads fromiso (BLACKOUT_WINDOWS cfg) (now_time ext) = true /\
    open_append_error w = None /\ req = checkout_request_for (url_root ext) c p.
Proof.
  intros car plate w req. unfold trace_of, create_checkout_session.
  destruct (booking_allowed loads fromiso (BLACKOUT_WINDOWS cfg) (now_time ext)) eqn:Ha;
    cbn [negb]; [|intros [H|[]]; discriminate].
  destruct car as [[|c0 c']|], plate as [[|p0 p']|]; cbn [negb truthy orb snd];
    try (intros [H|[H|[]]]; discriminate).
  destruct (open_append_error w) as [[e|n e]|] eqn:Ho; cbn [snd];
    [intros [H|[H|[]]]; discriminate | intros [H|[H|[H|[]]]]; discriminate |].
  destruct (stripe_create ext _); cbn [snd];
    (intros [H|[H|[H|[H|[]]]]]; try discriminate; injection H as <-;
     exists (c0 :: c'), (p0 :: p'); repeat split; auto; discriminate).
Qed.

End CheckoutRuns.

(** *** The timestamp *)

Lemma digit_code_ok : forall k, 0 <= k <= 9 -> is_digit_code (48 + k) = true.
Proof.
  intros k Hk. unfold is_digit_code. apply andb_true_intro; split; apply Z.leb_le; lia.
Qed.

Ltac div10 x :=
  pose proof (Z.div_mod x 10 ltac:(lia)); pose proof (Z.mod_pos_bound x 10 ltac:(lia)).

Lemma dec_four_digits : forall y, 1000 <= y <= 9999 ->
  dec y = [48 + y / 10 / 10 / 10; 48 + (y / 10 / 10) mod 10;
           48 + (y / 10) mod 10; 48 + y mod 10].
Proof.
  intros y Hy. div10 y. div10 (y / 10). div10 (y / 10 / 10).
  unfold dec. cbn [dec_aux].
  rewrite (proj2 (Z.ltb_ge y 10)) by lia.
  rewrite (proj2 (Z.ltb_ge (y / 10) 10)) by lia.
  rewrite (proj2 (Z.ltb_ge (y / 10 / 10) 10)) by lia.
  rewrite (proj2 (Z.ltb_lt (y / 10 / 10 / 10) 10)) by lia.
  reflexivity.
Qed.

Lemma strftime_ts_shape : forall d, valid_stamp d ->
  timestamp_shape (strftime_ts d) = true.
Proof.
  intros [y mo dd [h mi s us]] (Hy & Hmo & Hd & Hc).
  unfold TimeModel.clock_in_range in Hc; simpl in Hc, Hy, Hmo, Hd.
  rewrite !Bool.andb_true_iff, !Z.leb_le in Hc.
  unfold strftime_ts, pad2; simpl year; simpl month; simpl day; simpl dt_clock.
  rewrite (dec_four_digits y Hy).
  div10 y. div10 (y / 10). div10 (y / 10 / 10).
  div10 mo. div10 dd. div10 h. div10 mi. div10 s.
  cbn -[Z.add Z.div Z.modulo].
  rewrite !digit_code_ok by lia. reflexivity.
Qed.

(** *** The log only grows *)

Lemma create_checkout_session_log : forall loads fromiso cfg ext car plate w,
  fs_of (create_checkout_session loads fromiso cfg ext car plate w) = w \/
  exists t, log_file (fs_of (create_checkout_session loads fromiso cfg ext car plate w)) =
            Some (file_text (log_file w) ++ t).
Proof.
  intros loads fromiso cfg ext car plate w.
  destruct (booking_allowed loads fromiso (BLACKOUT_WINDOWS cfg) (now_time ext)) eqn:Ha;
    [|left; apply create_checkout_session_unchanged; auto].
  destruct (truthy car) eqn:Hc; [|left; apply create_checkout_session_unchanged; auto].
  destruct (truthy plate) eqn:Hp; [|left; apply create_checkout_session_unchanged; auto].
  destruct (open_append_error w) as [[e|n e]|] eqn:Ho;
    [left; apply create_checkout_session_unchanged; right; right; right; eauto| |].
  - destruct car as [[|c0 c']|]; try discriminate.
    destruct plate as [[|p0 p']|]; try discriminate.
    right. rewrite (create_checkout_session_write_fails loads fromiso cfg ext _ _ w n e)
      by (auto; discriminate).
    eexists; reflexivity.
  - destruct car as [[|c0 c']|]; try discriminate.
    destruct plate as [[|p0 p']|]; try discriminate.
    right. rewrite create_checkout_session_admitted by (auto; discriminate).
    cbv zeta. destruct (stripe_create ext _); eexists; reflexivity.
Qed.

Lemma log_extends_of : forall w w',
  (w' = w \/ exists t, log_file w' = Some (file_text (log_file w) ++ t)) ->
  log_extends (log_file w) (log_file w').
Proof.
  intros w w' [-> | (t & Ht)].
  - destruct (log_file w); simpl; [exists []; rewrite app_nil_r|]; auto.
  - rewrite Ht. destruct (log_file w); simpl; eauto.
Qed.

Lemma handle_log_extends : forall loads fromiso chk cfg ext r w,
  log_extends (log_file w) (log_file (fs_of (handle loads fromiso chk cfg ext r w))).
Proof.
  intros loads fromiso chk cfg ext r w. apply log_extends_of.
  destruct r; cbn [handle]; try (left; reflexivity).
  apply create_checkout_session_log.
Qed.

(** *** Claims *)

Lemma appended_text_header : forall f c p st,
  appended_text f c p st = header_text f ++ csv_line [c; p; strftime_ts st].
Proof. intros [[|x l]|] c p st; reflexivity. Qed.

(** [C5] (amended): for an admitted submission with both fields non-empty
    the [with] block runs.  When it completes, the header (if the log was
    missing or empty) and exactly one reservation row follow the old
    content.  When [open] raises, the route answers 500 and the file
    system is unchanged.  When a write or the flush at [close] raises (a
    full disk), the route answers 500 without a payment call and the log
    keeps the old content followed by a prefix of that text: nothing, a
    part of the header or a truncated row.  Every submission not admitted
    or with a field empty or missing leaves the file system unchanged,
    and no route changes what the log already holds. *)
Theorem reservation_log_append_only :
  forall loads fromiso chk cfg ext car plate w,
  let x := create_checkout_session loads fromiso cfg ext car plate w in
  (forall c p, car = Some c -> plate = Some p -> c <> [] -> p <> [] ->
   booking_allowed loads fromiso (BLACKOUT_WINDOWS cfg) (now_time ext) = true ->
   let text := header_text (log_file w) ++ csv_line [c; p; strftime_ts (now_stamp ext)] in
   (open_append_error w = None ->
    log_file (fs_of x) = Some (file_text (log_file w) ++ text)) /\
   (forall e, open_append_error w = Some (OpenRaises e) ->
    resp_of x = RServerError /\ fs_of x = w) /\
   (forall n e, open_append_error w = Some (WriteRaises n e) ->
    resp_of x = RServerError /\
    log_file (fs_of x) = Some (file_text (log_file w) ++ firstn n text) /\
    (forall req, ~ In (EvPayment req) (trace_of x)))) /\
  (booking_allowed loads fromiso (BLACKOUT_WINDOWS cfg) (now_time ext) = false \/
   truthy car = false \/ truthy plate = false ->
   fs_of x = w) /\
  (forall r, log_extends (log_file w)
               (log_file (fs_of (handle loads fromiso chk cfg ext r w)))).
Proof.
  intros loads fromiso chk cfg ext car plate w x. subst x. split; [|split].
  - intros c p -> -> Hc Hp Ha text. subst text. split; [|split].
    + intros Ho.
      rewrite (create_checkout_session_admitted loads fromiso cfg ext c p w Ha Hc Hp Ho).
      cbv zeta. rewrite appended_text_header.
      destruct (stripe_create ext _); reflexivity.
    + intros e Ho. split.
      * unfold create_checkout_session. rewrite Ha.
        destruct c as [|c0 c']; [congruence|]. destruct p as [|p0 p']; [congruence|].
        cbn [negb truthy orb]. rewrite Ho. reflexivity.
      * apply create_checkout_session_unchanged. right; right; right; eauto.
    + intros n e Ho.
      rewrite (create_checkout_session_write_fails loads fromiso cfg ext c p w n e Ha Hc Hp Ho).
      cbv zeta. rewrite appended_text_header.
      split; [reflexivity|]. split; [reflexivity|].
      intros req [H|[H|[H|[]]]]; discriminate.
  - intros H. apply create_checkout_session_unchanged. intuition.
  - intros r. apply handle_log_extends.
Qed.

Lemma reservation_log_append_only_witness :
  resp_of (create_checkout_session_py cfg_open (ext_noon (StripeSession []))
             (Some (s2c "Honda Civic")) (Some (s2c "ABC123")) fs_disk_full) = RServerError /\
  log_file (fs_of (create_checkout_session_py cfg_open (ext_noon (StripeSession []))
             (Some (s2c "Honda Civic")) (Some (s2c "ABC123")) fs_disk_full)) =
  Some (s2c "Make,License Plate,Date and Time" ++ [13; 10] ++ s2c "Honda Civi").
Proof.
  destruct (proj1 (reservation_log_append_only JsonModel.json_loads TimeModel.time_fromisoformat
                  (fun _ _ => Some true) cfg_open (ext_noon (StripeSession []))
                  (Some (s2c "Honda Civic")) (Some (s2c "ABC123")) fs_disk_full)
           (s2c "Honda Civic") (s2c "ABC123") eq_refl eq_refl ltac:(discriminate)
           ltac:(discriminate) eq_refl) as (_ & _ & Hw).
  destruct (Hw 10%nat (s2c "[Errno 28] No space left on device") eq_refl) as (Hr & Hl & _).
  split; [exact Hr | etransitivity; [exact Hl | reflexivity]].
Defined.

(** [C5] fails as stated: the submission is admitted and both fields are
    non-empty, but the log cannot be opened for append; the route raises
    (a 500) and no row is appended. *)
Lemma reservation_not_appended_when_log_unwritable :
  booking_allowed_py (BLACKOUT_WINDOWS cfg_open) noon = true /\
  create_checkout_session_py cfg_open (ext_noon (StripeSession []))
    (Some (s2c "Honda Civic")) (Some (s2c "ABC123")) fs_read_only =
  (RServerError, fs_read_only, [EvAdmission true; EvValidate true]).
Proof. split; reflexivity. Qed.

(** [C6]: the header row goes in exactly when the log is missing or empty;
    then one row with the three fields car model, license plate and the
    timestamp, which has the shape [YYYY-MM-DD HH:MM:SS] for a current
    time with its fields in range and a four-digit year. *)
Theorem reservation_row_format :
  forall loads fromiso cfg ext c p w,
  booking_allowed loads fromiso (BLACKOUT_WINDOWS cfg) (now_time ext) = true ->
  c <> [] -> p <> [] -> open_append_error w = None -> valid_stamp (now_stamp ext) ->
  log_file (fs_of (create_checkout_session loads fromiso cfg ext (Some c) (Some p) w)) =
  Some (file_text (log_file w) ++
        match log_file w with
        | None => csv_line header_row
        | Some [] => csv_line header_row
        | Some (_ :: _) => []
        end ++ csv_line [c; p; strftime_ts (now_stamp ext)]) /\
  csv_line header_row = s2c "Make,License Plate,Date and Time" ++ [13; 10] /\
  timestamp_shape (strftime_ts (now_stamp ext)) = true.
Proof.
  intros loads fromiso cfg ext c p w Ha Hc Hp Ho Hv.
  rewrite (create_checkout_session_admitted loads fromiso cfg ext c p w Ha Hc Hp Ho).
  cbv zeta. split; [|split; [reflexivity | apply strftime_ts_shape; exact Hv]].
  destruct (stripe_create ext _); destruct (log_file w) as [[|x xs]|]; reflexivity.
Qed.

Lemma reservation_row_format_witness :
  log_file (fs_of (create_checkout_session_py cfg_open (ext_noon (StripeSession []))
                     (Some (s2c "Honda Civic")) (Some (s2c "ABC123")) fs_empty)) =
  Some (csv_line header_row ++ csv_line [s2c "Honda Civic"; s2c "ABC123"; s2c "2026-10-18 12:00:00"]).
Proof.
  destruct (reservation_row_format JsonModel.json_loads TimeModel.time_fromisoformat
              cfg_open (ext_noon (StripeSession [])) (s2c "Honda Civic") (s2c "ABC123")
              fs_empty) as [H _].
  - reflexivity.
  - discriminate.
  - discriminate.
  - reflexivity.
  - unfold valid_stamp; simpl; repeat split; try lia; reflexivity.
  - exact H.
Defined.

(** [C7]: every checkout request the route builds has one line item of
    1000 minor units in [usd] (Stripe's lower-case code for USD), quantity
    1, a name holding the car model and the plate, and redirect targets
    [url_root ++ /success?session_id={CHECKOUT_SESSION_ID}] and
    [url_root ++ /cancel]; an admitted, valid submission whose log opens
    builds one. *)
Theorem checkout_request_fixed_price :
  forall loads fromiso cfg ext car plate w,
  (forall req,
   In (EvPayment req) (trace_of (create_checkout_session loads fromiso cfg ext car plate w)) ->
   exists c p li, car = Some c /\ plate = Some p /\ line_items req = [li] /\
     li_unit_amount li = 1000 /\ li_currency li = s2c "usd" /\ li_quantity li = 1 /\
     (exists a b d, li_product_name li = a ++ c ++ b ++ p ++ d) /\
     success_url req = url_root ext ++ s2c "/success?session_id={CHECKOUT_SESSION_ID}" /\
     cancel_url req = url_root ext ++ s2c "/cancel") /\
  (forall c p, car = Some c -> plate = Some p -> c <> [] -> p <> [] ->
   booking_allowed loads fromiso (BLACKOUT_WINDOWS cfg) (now_time ext) = true ->
   open_append_error w = None ->
   exists req, In (EvPayment req)
                  (trace_of (create_checkout_session loads fromiso cfg ext car plate w))).
Proof.
  intros loads fromiso cfg ext car plate w. split.
  - intros req Hin.
    destruct (create_checkout_session_payment loads fromiso cfg ext car plate w req Hin)
      as (c & p & -> & -> & _ & _ & _ & _ & ->).
    eexists c, p, _. split; [reflexivity|]. split; [reflexivity|].
    split; [reflexivity|]. cbn.
    split; [reflexivity|]. split; [reflexivity|]. split; [reflexivity|].
    split; [exists (s2c "Parking for "), (s2c " ("), (s2c ")"); reflexivity|].
    split; reflexivity.
  - intros c p -> -> Hc Hp Ha Ho.
    rewrite (create_checkout_session_admitted loads fromiso cfg ext c p w Ha Hc Hp Ho).
    cbv zeta. exists (checkout_request_for (url_root ext) c p).
    destruct (stripe_create ext _); cbn; auto 6.
Qed.

Lemma checkout_request_fixed_price_witness :
  exists req, In (EvPayment req)
    (trace_of (create_checkout_session_py cfg_open (ext_noon (StripeSession []))
                 (Some (s2c "Honda Civic")) (Some (s2c "ABC123")) fs_empty)).
Proof.
  apply (proj2 (checkout_request_fixed_price JsonModel.json_loads TimeModel.time_fromisoformat
                  cfg_open (ext_noon (StripeSession [])) (Some (s2c "Honda Civic"))
                  (Some (s2c "ABC123")) fs_empty) (s2c "Honda Civic") (s2c "ABC123"));
    try reflexivity; discriminate.
Defined.

(** ** Claims on the admin route and on failures *)




(** [C9]: a Stripe exception during checkout is answered with status 200
    and the exception's text as the body, after exactly one call; an
    exception of [send_file] on the admin route, likewise. *)
Theorem external_failure_reported_as_text :
  (forall loads fromiso cfg ext c p w e,
   booking_allowed loads fromiso (BLACKOUT_WINDOWS cfg) (now_time ext) = true ->
   c <> [] -> p <> [] -> open_append_error w = None ->
   stripe_create ext (checkout_request_for (url_root ext) c p) = StripeError e ->
   resp_of (create_checkout_session loads fromiso cfg ext (Some c) (Some p) w) = RText 200 e [] /\
   exists t, trace_of (create_checkout_session loads fromiso cfg ext (Some c) (Some p) w) =
             [EvAdmission true; EvValidate true; EvAppend t;
              EvPayment (checkout_request_for (url_root ext) c p)]) /\
  (forall chk cfg a w e,
   cred_username a = Some (ADMIN_USERNAME cfg) ->
   chk (ADMIN_PASSWORD_HASH cfg) (cred_password a) = Some true ->
   send_file cfg w = inl e ->
   admin_view_reservations chk cfg (Some a) w = RText 200 e []).
Proof.
  split.
  - intros loads fromiso cfg ext c p w e Ha Hc Hp Ho He.
    rewrite (create_checkout_session_admitted loads fromiso cfg ext c p w Ha Hc Hp Ho).
    cbv zeta. rewrite He. split; [reflexivity|]. eexists; reflexivity.
  - intros chk cfg a w e Hu Hk Hs. unfold admin_view_reservations.
    rewrite Hu, (proj2 (pystr_eqb_eq _ _) eq_refl). cbn [negb].
    rewrite Hk, Hs. reflexivity.
Qed.

Lemma external_failure_reported_as_text_witness :
  resp_of (create_checkout_session_py cfg_open (ext_noon (StripeError (s2c "Invalid API Key provided")))
             (Some (s2c "Honda Civic")) (Some (s2c "ABC123")) fs_empty) =
  RText 200 (s2c "Invalid API Key provided") [].
Proof.
  apply (proj1 (external_failure_reported_as_text) JsonModel.json_loads
           TimeModel.time_fromisoformat cfg_open
           (ext_noon (StripeError (s2c "Invalid API Key provided")))
           (s2c "Honda Civic") (s2c "ABC123") fs_empty (s2c "Invalid API Key provided"));
    try reflexivity; discriminate.
Defined.

(** [C10]: on the admitted, valid path the row is appended before the
    payment call, and the log after the request holds it whatever Stripe
    answers, a failure included. *)
Theorem reservation_kept_when_payment_fails :
  forall loads fromiso cfg ext c p w,
  booking_allowed loads fromiso (BLACKOUT_WINDOWS cfg) (now_time ext) = true ->
  c <> [] -> p <> [] -> open_append_error w = None ->
  let x := create_checkout_session loads fromiso cfg ext (Some c) (Some p) w in
  let text := appended_text (log_file w) c p (now_stamp ext) in
  trace_of x = [EvAdmission true; EvValidate true; EvAppend text;
                EvPayment (checkout_request_for (url_root ext) c p)] /\
  log_file (fs_of x) = Some (file_text (log_file w) ++ text) /\
  (forall e, stripe_create ext (checkout_request_for (url_root ext) c p) = StripeError e ->
   resp_of x = RText 200 e [] /\ log_file (fs_of x) = Some (file_text (log_file w) ++ text)).
Proof.
  intros loads fromiso cfg ext c p w Ha Hc Hp Ho x text. subst x text.
  rewrite (create_checkout_session_admitted loads fromiso cfg ext c p w Ha Hc Hp Ho).
  cbv zeta. split; [|split].
  - destruct (stripe_create ext _); reflexivity.
  - destruct (stripe_create ext _); reflexivity.
  - intros e He. rewrite He. split; reflexivity.
Qed.

Lemma reservation_kept_when_payment_fails_witness :
  log_file (fs_of (create_checkout_session_py cfg_open
                     (ext_noon (StripeError (s2c "Invalid API Key provided")))
                     (Some (s2c "Honda Civic")) (Some (s2c "ABC123")) fs_empty)) =
  Some (csv_line header_row ++ csv_line [s2c "Honda Civic"; s2c "ABC123"; s2c "2026-10-18 12:00:00"]).
Proof.
  destruct (reservation_kept_when_payment_fails JsonModel.json_loads TimeModel.time_fromisoformat
              cfg_open (ext_noon (StripeError (s2c "Invalid API Key provided")))
              (s2c "Honda Civic") (s2c "ABC123") fs_empty) as (_ & H & _).
  - reflexivity.
  - discriminate.
  - discriminate.
  - reflexivity.
  - exact H.
Defined.

(** ** More of [booking_allowed] *)

Lemma clock_le_trans : forall a b c,
  clock_le a b = true -> clock_le b c = true -> clock_le a c = true.
Proof.
  intros [h1 m1 s1 u1] [h2 m2 s2 u2] [h3 m3 s3 u3]; unfold clock_le; simpl.
  rewrite !Bool.orb_true_iff, !Bool.andb_true_iff, !Bool.orb_true_iff,
    !Bool.andb_true_iff, !Bool.orb_true_iff, !Bool.andb_true_iff,
    !Z.ltb_lt, !Z.eqb_eq, !Z.leb_le.
  lia.
Qed.

(** The loop over [ws1 ++ ws2] is the loop over [ws1], and, when that one
    finishes without returning or raising, the loop over [ws2]. *)
Theorem check_windows_app : forall fromiso ws1 ws2 now,
  check_windows fromiso (ws1 ++ ws2) now =
  match check_windows fromiso ws1 now with
  | Some true => check_windows fromiso ws2 now
  | r => r
  end.
Proof.
  intros fromiso ws1 ws2 now. induction ws1 as [|w ws1 IH]; [reflexivity|].
  simpl. destruct (window_step fromiso w now) as [[|]|]; [reflexivity| |reflexivity].
  exact IH.
Qed.

(** A configuration that parses to anything but a list (an object, a
    string, a number, [true], [false], [null]) never denies admission: an
    object or a string yields strings, which cannot be subscripted with a
    key, and the rest cannot be iterated. *)
Theorem booking_allowed_not_a_list : forall loads fromiso s v now,
  loads s = Some v -> (forall ws, v <> JArr ws) ->
  booking_allowed loads fromiso (Some s) now = true.
Proof.
  intros loads fromiso s v now Hl Hv. unfold booking_allowed.
  destruct s as [|c s']; [reflexivity|]. rewrite Hl.
  destruct v as [| | |str|ws|ms]; cbn [py_iter]; try reflexivity.
  - destruct str; reflexivity.
  - exfalso; apply (Hv ws); reflexivity.
  - destruct (dedup_keys [] (map fst ms)); reflexivity.
Qed.

Lemma booking_allowed_not_a_list_witness :
  booking_allowed_py (Some (js "{'start':'00:00','end':'23:59'}")) noon = true.
Proof.
  apply (booking_allowed_not_a_list JsonModel.json_loads TimeModel.time_fromisoformat
           _ (JObj [(s2c "start", JStr (s2c "00:00")); (s2c "end", JStr (s2c "23:59"))]));
    [reflexivity | discriminate].
Defined.

(** A list whose first entry is not an object raises on [w[start]] and
    never denies admission, whatever follows. *)
Theorem booking_allowed_first_not_object : forall loads fromiso s w rest now,
  loads s = Some (JArr (w :: rest)) -> (forall ms, w <> JObj ms) ->
  booking_allowed loads fromiso (Some s) now = true.
Proof.
  intros loads fromiso s w rest now Hl Hw. unfold booking_allowed.
  destruct s as [|c s']; [reflexivity|]. rewrite Hl. cbn [py_iter check_windows].
  unfold window_step, subscript.
  destruct w; try reflexivity. exfalso; eapply Hw; reflexivity.
Qed.

Lemma booking_allowed_first_not_object_witness :
  booking_allowed_py (Some (js "['00:00-06:00',{'start':'00:00','end':'23:59'}]")) noon = true.
Proof.
  apply (booking_allowed_first_not_object JsonModel.json_loads TimeModel.time_fromisoformat
           _ (JStr (s2c "00:00-06:00"))
           [JObj [(s2c "start", JStr (s2c "00:00")); (s2c "end", JStr (s2c "23:59"))]]);
    [reflexivity | discriminate].
Defined.

(** No overnight wrap: in a list of windows with naive times and
    [start > end] (say 22:00 to 06:00), no window ever covers the current
    time, so admission is allowed at every time of day. *)
Theorem booking_allowed_overnight_windows : forall loads fromiso s ws now,
  loads s = Some (JArr ws) ->
  Forall (fun w => exists st en, window_times fromiso w = Some (st, en) /\
            t_utcoffset st = None /\ t_utcoffset en = None /\
            clock_le (t_clock st) (t_clock en) = false) ws ->
  booking_allowed loads fromiso (Some s) now = true.
Proof.
  intros loads fromiso s ws now Hl Hf. unfold booking_allowed.
  destruct s as [|c s']; [reflexivity|]. rewrite Hl. cbn [py_iter]. clear Hl.
  induction Hf as [|w ws (st & en & Ht & Hs & He & Hgt) _ IH]; [reflexivity|].
  cbn [check_windows]. rewrite (window_step_naive _ w st en now Ht Hs He).
  unfold in_window.
  destruct (clock_le (t_clock st) now) eqn:H1; [|exact IH].
  destruct (clock_le now (t_clock en)) eqn:H2; [|exact IH].
  rewrite (clock_le_trans _ _ _ H1 H2) in Hgt. discriminate.
Qed.

Lemma booking_allowed_overnight_windows_witness :
  booking_allowed_py (Some (js "[{'start':'22:00','end':'06:00'}]")) (mkClock 23 30 0 0) = true.
Proof.
  apply (booking_allowed_overnight_windows JsonModel.json_loads TimeModel.time_fromisoformat _
           [JObj [(s2c "start", JStr (s2c "22:00")); (s2c "end", JStr (s2c "06:00"))]]);
    [reflexivity|].
  constructor; [|constructor]. do 2 eexists. repeat split; reflexivity.
Defined.

(** The chained comparison [start <= now <= end] stops when [start <= now]
    is false: an end time with a UTC offset is compared, and raises, only
    when a naive start is at or before [now]. *)
Theorem window_step_aware_end : forall fromiso w st en off now,
  window_times fromiso w = Some (st, en) ->
  t_utcoffset st = None -> t_utcoffset en = Some off ->
  window_step fromiso w now =
  if clock_le (t_clock st) now then None else Some false.
Proof.
  intros fromiso w st en off now H Hs He; unfold window_times in H; unfold window_step.
  destruct (subscript w (s2c "start")) as [sv|]; [|discriminate].
  destruct (fromisoformat_value fromiso sv) as [st'|]; [|discriminate].
  destruct (subscript w (s2c "end")) as [ev|]; [|discriminate].
  destruct (fromisoformat_value fromiso ev) as [en'|]; [|discriminate].
  injection H as -> ->. unfold time_le_naive, naive_le_time. rewrite Hs, He.
  destruct (clock_le (t_clock st) now); reflexivity.
Qed.

Lemma window_step_aware_end_witness :
  window_step TimeModel.time_fromisoformat
    (JObj [(s2c "start", JStr (s2c "22:00")); (s2c "end", JStr (s2c "23:00+01:00"))]) noon =
  Some false.
Proof.
  rewrite (window_step_aware_end TimeModel.time_fromisoformat _
             (mkTime (mkClock 22 0 0 0) None) (mkTime (mkClock 23 0 0 0) (Some 3600000000))
             3600000000 noon); reflexivity.
Defined.

(** ** More of the routes *)

Lemma log_extends_trans : forall a b c,
  log_extends a b -> log_extends b c -> log_extends a c.
Proof.
  intros [a|] [b|] [c|]; simpl; auto; try contradiction.
  intros (t1 & ->) (t2 & ->). exists (t1 ++ t2). symmetry; apply app_assoc.
Qed.

(** Over any sequence of requests the log only grows: what it held before
    the run is a prefix of what it holds after. *)
Theorem run_log_extends : forall loads fromiso chk steps w,
  log_extends (log_file w) (log_file (run loads fromiso chk steps w)).
Proof.
  intros loads fromiso chk steps. induction steps as [|[[cfg ext] r] steps IH]; intros w.
  - apply log_extends_of. left; reflexivity.
  - cbn [run]. eapply log_extends_trans; [apply handle_log_extends|apply IH].
Qed.

(** The row the route writes, with the text the [with] block appends. *)
Lemma create_checkout_session_log_row : forall loads fromiso cfg ext car plate w,
  (forall n e, open_append_error w <> Some (WriteRaises n e)) ->
  fs_of (create_checkout_session loads fromiso cfg ext car plate w) = w \/
  exists c p, log_file (fs_of (create_checkout_session loads fromiso cfg ext car plate w)) =
              Some (file_text (log_file w) ++ appended_text (log_file w) c p (now_stamp ext)).
Proof.
  intros loads fromiso cfg ext car plate w Hw.
  destruct (booking_allowed loads fromiso (BLACKOUT_WINDOWS cfg) (now_time ext)) eqn:Ha;
    [|left; apply create_checkout_session_unchanged; auto].
  destruct (truthy car) eqn:Hc; [|left; apply create_checkout_session_unchanged; auto].
  destruct (truthy plate) eqn:Hp; [|left; apply create_checkout_session_unchanged; auto].
  destruct (open_append_error w) as [[e|n e]|] eqn:Ho;
    [left; apply create_checkout_session_unchanged; right; right; right; eauto
    | exfalso; exact (Hw n e eq_refl) |].
  destruct car as [[|c0 c']|]; try discriminate.
  destruct plate as [[|p0 p']|]; try discriminate.
  right. rewrite create_checkout_session_admitted by (auto; discriminate).
  exists (c0 :: c'), (p0 :: p').
  cbv zeta. destruct (stripe_create ext _); reflexivity.
Qed.

Lemma csv_line_nonempty : forall row, csv_line row <> [].
Proof.
  intros row. unfold csv_line.
  destruct row as [|[|x f] [|y r]]; try discriminate; intros H;
    apply (f_equal (@List.length Z)) in H; rewrite length_app in H; simpl in H; lia.
Qed.

Lemma log_wellformed_append : forall f c p st, valid_stamp st ->
  log_wellformed f -> log_wellformed (Some (file_text f ++ appended_text f c p st)).
Proof.
  intros f c p st Hst Hf.
  assert (Hrow : reservation_row [c; p; strftime_ts st])
    by (exists c, p, (strftime_ts st); split; [reflexivity | apply strftime_ts_shape; exact Hst]).
  destruct Hf as [-> | [-> | (rows & Hrows & ->)]]; right; right.
  - exists [[c; p; strftime_ts st]]. split; [repeat constructor; exact Hrow|].
    simpl. rewrite !app_nil_r. reflexivity.
  - exists [[c; p; strftime_ts st]]. split; [repeat constructor; exact Hrow|].
    simpl. rewrite !app_nil_r. reflexivity.
  - exists (rows ++ [[c; p; strftime_ts st]]).
    split; [apply Forall_app; split; [exact Hrows | repeat constructor; exact Hrow]|].
    unfold appended_text, file_text.
    destruct (csv_line header_row) as [|h t] eqn:Hh; [exfalso; exact (csv_line_nonempty _ Hh)|].
    cbn [negb orb List.length app Nat.eqb].
    rewrite map_app, concat_app. simpl. rewrite !app_nil_r, <- !app_assoc. reflexivity.
Qed.

(** The three fields of the file system the routes never write. *)
Lemma handle_keeps_other_fields : forall loads fromiso chk cfg ext r w,
  let w' := fs_of (handle loads fromiso chk cfg ext r w) in
  open_append_error w' = open_append_error w /\ read_error w' = read_error w /\
  root_log_file w' = root_log_file w.
Proof.
  intros loads fromiso chk cfg ext r w w'. subst w'.
  destruct r as [| car plate | | |]; cbn [handle]; try (repeat split; reflexivity).
  unfold create_checkout_session.
  destruct (booking_allowed _ _ _ _); cbn [negb]; [|repeat split; reflexivity].
  destruct car as [car|], plate as [plate|]; try (repeat split; reflexivity).
  destruct (negb (truthy (Some car)) || negb (truthy (Some plate))); [repeat split; reflexivity|].
  destruct (open_append_error w) as [[e|n e]|] eqn:Ho; cbv zeta;
    [| | destruct (stripe_create ext _)]; cbn; rewrite ?Ho; repeat split; reflexivity.
Qed.

Lemma run_keeps_other_fields : forall loads fromiso chk steps w,
  let w' := run loads fromiso chk steps w in
  open_append_error w' = open_append_error w /\ read_error w' = read_error w /\
  root_log_file w' = root_log_file w.
Proof.
  intros loads fromiso chk steps. induction steps as [|[[cfg ext] r] steps IH]; intros w;
    [repeat split; reflexivity|].
  cbn [run]. destruct (IH (fs_of (handle loads fromiso chk cfg ext r w))) as (H1 & H2 & H3).
  destruct (handle_keeps_other_fields loads fromiso chk cfg ext r w) as (K1 & K2 & K3).
  cbv zeta in *. rewrite H1, H2, H3, K1, K2, K3. repeat split; reflexivity.
Qed.

Lemma run_preserves_log_wellformed : forall loads fromiso chk steps w,
  (forall n e, open_append_error w <> Some (WriteRaises n e)) ->
  Forall (fun s => valid_stamp (now_stamp (snd (fst s)))) steps ->
  log_wellformed (log_file w) -> log_wellformed (log_file (run loads fromiso chk steps w)).
Proof.
  intros loads fromiso chk steps w Hno Hst. revert w Hno.
  induction Hst as [|[[cfg ext] r] steps Hv _ IH]; intros w Hno Hw; [exact Hw|].
  cbn [run]. cbn [snd fst] in Hv. apply IH.
  - rewrite (proj1 (handle_keeps_other_fields loads fromiso chk cfg ext r w)). exact Hno.
  - destruct r as [| car plate | | |]; cbn [handle]; try exact Hw.
    destruct (create_checkout_session_log_row loads fromiso cfg ext car plate w Hno)
      as [Heq | (c & p & Heq)].
    + rewrite Heq. exact Hw.
    + rewrite Heq. apply log_wellformed_append; assumption.
Qed.

(** The shape of the log is an invariant of the application, as long as
    no write of the [with] block fails (a failing [open] is harmless) and
    the clock gives dates with a four-digit year: started from a missing
    or empty file, or from the header followed by reservation rows, any
    sequence of requests leaves the header line followed by reservation
    rows, one per recorded reservation, each of three fields ending in a
    [YYYY-MM-DD HH:MM:SS] timestamp. *)
Theorem run_log_wellformed : forall loads fromiso chk steps w,
  (forall n e, open_append_error w <> Some (WriteRaises n e)) ->
  Forall (fun s => valid_stamp (now_stamp (snd (fst s)))) steps ->
  log_wellformed (log_file w) -> log_wellformed (log_file (run loads fromiso chk steps w)).
Proof.
  intros loads fromiso chk steps w Hno Hst Hw.
  apply run_preserves_log_wellformed; assumption.
Qed.

Lemma noon_stamp_valid : valid_stamp (now_stamp (ext_noon (StripeSession []))).
Proof. unfold valid_stamp; simpl; repeat split; try lia; reflexivity. Qed.

Lemma run_log_wellformed_witness :
  log_wellformed (log_file (run JsonModel.json_loads TimeModel.time_fromisoformat
    (fun _ _ => Some true)
    [(cfg_open, ext_noon (StripeSession []), PostCheckout (Some (s2c "Civic")) (Some (s2c "ABC123")));
     (cfg_all_day, ext_noon (StripeSession []), PostCheckout (Some (s2c "Golf")) (Some (s2c "XYZ9")));
     (cfg_open, ext_noon (StripeSession []), PostCheckout (Some (s2c "Golf")) (Some []))]
    fs_empty)).
Proof.
  apply run_log_wellformed;
    [discriminate | repeat (apply Forall_cons; [exact noon_stamp_valid|]); apply Forall_nil |].
  left; reflexivity.
Defined.

Lemma appended_text_fresh : forall f c p st, file_text f = [] ->
  appended_text f c p st = csv_line header_row ++ csv_line [c; p; strftime_ts st].
Proof.
  intros [[|x l]|] c p st Hf; try discriminate; reflexivity.
Qed.

Lemma appended_text_nonempty : forall x l c p st,
  appended_text (Some (x :: l)) c p st = csv_line [c; p; strftime_ts st].
Proof. reflexivity. Qed.

(** Two admitted, valid submissions on a missing or empty log that opens
    for append and whose writes succeed: the header once, then both rows
    in order.  Nothing is deduplicated: the same car and plate submitted
    twice are recorded twice. *)
Theorem two_submissions_accumulate :
  forall loads fromiso chk cfg ext1 ext2 c1 p1 c2 p2 w,
  booking_allowed loads fromiso (BLACKOUT_WINDOWS cfg) (now_time ext1) = true ->
  booking_allowed loads fromiso (BLACKOUT_WINDOWS cfg) (now_time ext2) = true ->
  c1 <> [] -> p1 <> [] -> c2 <> [] -> p2 <> [] ->
  open_append_error w = None -> file_text (log_file w) = [] ->
  log_file (run loads fromiso chk
              [(cfg, ext1, PostCheckout (Some c1) (Some p1));
               (cfg, ext2, PostCheckout (Some c2) (Some p2))] w) =
  Some (csv_line header_row ++ csv_line [c1; p1; strftime_ts (now_stamp ext1)] ++
        csv_line [c2; p2; strftime_ts (now_stamp ext2)]).
Proof.
  intros loads fromiso chk cfg ext1 ext2 c1 p1 c2 p2 w Ha1 Ha2 Hc1 Hp1 Hc2 Hp2 Ho Hf.
  cbn [run handle].
  rewrite (create_checkout_session_admitted loads fromiso cfg ext1 c1 p1 w Ha1 Hc1 Hp1 Ho).
  cbv zeta.
  set (w1 := mkFs _ None (read_error w) (root_log_file w)).
  assert (Hw1 : fs_of (match stripe_create ext1 (checkout_request_for (url_root ext1) c1 p1) with
            | StripeSession url => (RRedirect 303 url, w1, [EvAdmission true; EvValidate true;
                EvAppend (appended_text (log_file w) c1 p1 (now_stamp ext1));
                EvPayment (checkout_request_for (url_root ext1) c1 p1)])
            | StripeError e => (RText 200 e [], w1, [EvAdmission true; EvValidate true;
                EvAppend (appended_text (log_file w) c1 p1 (now_stamp ext1));
                EvPayment (checkout_request_for (url_root ext1) c1 p1)])
            end) = w1) by (destruct (stripe_create ext1 _); reflexivity).
  rewrite Hw1.
  rewrite (create_checkout_session_admitted loads fromiso cfg ext2 c2 p2 w1 Ha2 Hc2 Hp2 eq_refl).
  cbv zeta. unfold w1.
  rewrite (appended_text_fresh _ _ _ _ Hf), Hf. cbn [app file_text log_file].
  destruct (csv_line header_row) as [|h t] eqn:Hh; [exfalso; exact (csv_line_nonempty _ Hh)|].
  cbn [app]. rewrite appended_text_nonempty.
  destruct (stripe_create ext2 _); cbn [fs_of fst snd log_file];
    rewrite <- app_assoc; reflexivity.
Qed.

Lemma two_submissions_accumulate_witness :
  log_file (run JsonModel.json_loads TimeModel.time_fromisoformat (fun _ _ => Some true)
    [(cfg_open, ext_noon (StripeSession []), PostCheckout (Some (s2c "Civic")) (Some (s2c "ABC123")));
     (cfg_open, ext_noon (StripeError []), PostCheckout (Some (s2c "Civic")) (Some (s2c "ABC123")))]
    fs_empty) =
  Some (s2c "Make,License Plate,Date and Time" ++ [13; 10] ++
        s2c "Civic,ABC123,2026-10-18 12:00:00" ++ [13; 10] ++
        s2c "Civic,ABC123,2026-10-18 12:00:00" ++ [13; 10]).
Proof.
  rewrite (two_submissions_accumulate JsonModel.json_loads TimeModel.time_fromisoformat
             (fun _ _ => Some true) cfg_open (ext_noon (StripeSession [])) (ext_noon (StripeError []))
             (s2c "Civic") (s2c "ABC123") (s2c "Civic") (s2c "ABC123") fs_empty);
    try reflexivity; discriminate.
Defined.



(** Started from a directory other than [root_path], the server keeps
    the reservations where the admin route does not look: no sequence of
    requests changes what the admin route answers. *)
Theorem admin_view_blind_to_run : forall loads fromiso chk steps w cfg auth,
  cwd cfg <> root_path cfg ->
  admin_view_reservations chk cfg auth (run loads fromiso chk steps w) =
  admin_view_reservations chk cfg auth w.
Proof.
  intros loads fromiso chk steps w cfg auth Hd.
  destruct (run_keeps_other_fields loads fromiso chk steps w) as (_ & Hr & Hl).
  unfold admin_view_reservations, send_file.
  destruct (pystr_eqb (cwd cfg) (root_path cfg)) eqn:He;
    [apply pystr_eqb_eq in He; contradiction|].
  rewrite Hr, Hl. reflexivity.
Qed.

Lemma admin_view_blind_to_run_witness :
  admin_view_reservations (fun _ _ => Some true) cfg_elsewhere
    (Some (mkCredentials (Some (s2c "default_user")) (Some (s2c "default_password"))))
    (run JsonModel.json_loads TimeModel.time_fromisoformat (fun _ _ => Some true)
       [(cfg_elsewhere, ext_noon (StripeSession []),
         PostCheckout (Some (s2c "Civic")) (Some (s2c "ABC123")))] fs_empty) =
  RText 200 (s2c "[Errno 2] No such file or directory: '/srv/app/reservations.csv'") [].
Proof.
  rewrite admin_view_blind_to_run; [reflexivity|].
  intros H. vm_compute in H. discriminate H.
Defined.

(** A submission that is admitted, valid and logged, and for which Stripe
    creates a session, is answered with a 303 redirect to the session URL. *)
Theorem checkout_redirects_to_session : forall loads fromiso cfg ext c p w url,
  booking_allowed loads fromiso (BLACKOUT_WINDOWS cfg) (now_time ext) = true ->
  c <> [] -> p <> [] -> open_append_error w = None ->
  stripe_create ext (checkout_request_for (url_root ext) c p) = StripeSession url ->
  resp_of (create_checkout_session loads fromiso cfg ext (Some c) (Some p) w) = RRedirect 303 url.
Proof.
  intros loads fromiso cfg ext c p w url Ha Hc Hp Ho Hs.
  rewrite (create_checkout_session_admitted loads fromiso cfg ext c p w Ha Hc Hp Ho).
  cbv zeta. rewrite Hs. reflexivity.
Qed.

Lemma checkout_redirects_to_session_witness :
  resp_of (create_checkout_session_py cfg_open (ext_noon (StripeSession (s2c "https://checkout.stripe.com/c/pay/cs_test")))
             (Some (s2c "Civic")) (Some (s2c "ABC123")) fs_empty) =
  RRedirect 303 (s2c "https://checkout.stripe.com/c/pay/cs_test").
Proof.
  apply checkout_redirects_to_session; try reflexivity; discriminate.
Defined.

(** The reservation is written before the payment is attempted: whenever
    the route calls Stripe, the trace is admission, validation, the append
    and then the call, and the appended text is already in the log. *)
Theorem payment_only_after_append : forall loads fromiso cfg ext car plate w req,
  In (EvPayment req) (trace_of (create_checkout_session loads fromiso cfg ext car plate w)) ->
  exists text,
    trace_of (create_checkout_session loads fromiso cfg ext car plate w) =
      [EvAdmission true; EvValidate true; EvAppend text; EvPayment req] /\
    log_file (fs_of (create_checkout_session loads fromiso cfg ext car plate w)) =
      Some (file_text (log_file w) ++ text).
Proof.
  intros loads fromiso cfg ext car plate w req Hin.
  destruct (create_checkout_session_payment loads fromiso cfg ext car plate w req Hin)
    as (c & p & -> & -> & Hc & Hp & Ha & Ho & ->).
  rewrite (create_checkout_session_admitted loads fromiso cfg ext c p w Ha Hc Hp Ho).
  cbv zeta. eexists. destruct (stripe_create ext _); split; reflexivity.
Qed.

Lemma payment_only_after_append_witness :
  exists text,
    trace_of (create_checkout_session_py cfg_open (ext_noon (StripeError (s2c "card declined")))
                (Some (s2c "Civic")) (Some (s2c "ABC123")) fs_empty) =
      [EvAdmission true; EvValidate true; EvAppend text;
       EvPayment (checkout_request_for (s2c "http://localhost:5000") (s2c "Civic") (s2c "ABC123"))] /\
    log_file (fs_of (create_checkout_session_py cfg_open (ext_noon (StripeError (s2c "card declined")))
                (Some (s2c "Civic")) (Some (s2c "ABC123")) fs_empty)) =
      Some (file_text (log_file fs_empty) ++ text).
Proof.
  apply payment_only_after_append. simpl. right; right; right; left; reflexivity.
Defined.

(** ** Reading the log back *)

Definition esc_quote (c : Z) : pystr := if c =? 34 then [34; 34] else [c].

Lemma read_unquoted_field : forall f rest,
  csv_needs_quote f = false ->
  (rest = [] \/ exists r, rest = 44 :: r \/ rest = 13 :: r) ->
  read_unquoted (f ++ rest) = (f, rest).
Proof.
  induction f as [|x f IH]; intros rest Hq Hr.
  - destruct Hr as [-> | (r & [-> | ->])]; reflexivity.
  - unfold csv_needs_quote in Hq. cbn [existsb] in Hq.
    apply Bool.orb_false_iff in Hq as [Hx Hq].
    rewrite !Bool.orb_false_iff in Hx. destruct Hx as [[[H44 H34] H13] H10].
    cbn [app read_unquoted]. rewrite H44, H13. cbn [orb].
    rewrite (IH rest Hq Hr). reflexivity.
Qed.

Lemma read_quoted_field : forall f rest,
  (forall r, rest <> 34 :: r) ->
  read_quoted (flat_map esc_quote f ++ 34 :: rest) = Some (f, rest).
Proof.
  induction f as [|x f IH]; intros rest Hr.
  - cbn. destruct rest as [|c r]; [reflexivity|].
    destruct (c =? 34) eqn:Hc; [apply Z.eqb_eq in Hc; subst; exfalso; exact (Hr r eq_refl)|].
    reflexivity.
  - cbn [flat_map]. unfold esc_quote at 1.
    destruct (x =? 34) eqn:Hx.
    + apply Z.eqb_eq in Hx; subst x. cbn. rewrite (IH rest Hr). reflexivity.
    + cbn [app read_quoted]. rewrite Hx. rewrite (IH rest Hr). reflexivity.
Qed.

Lemma read_field_csv_field : forall f rest,
  (rest = [] \/ exists r, rest = 44 :: r \/ rest = 13 :: r) ->
  read_field (csv_field f ++ rest) = Some (f, rest).
Proof.
  intros f rest Hr. unfold csv_field.
  destruct (csv_needs_quote f) eqn:Hq.
  - cbn [app read_field]. rewrite <- app_assoc. cbn [app].
    change (flat_map (fun c => if c =? 34 then [34; 34] else [c]) f) with (flat_map esc_quote f).
    apply read_quoted_field. intros r. destruct Hr as [-> | (r' & [-> | ->])]; discriminate.
  - rewrite <- (read_unquoted_field f rest Hq Hr).
    destruct f as [|x f].
    + destruct Hr as [-> | (r & [-> | ->])]; reflexivity.
    + unfold csv_needs_quote in Hq. cbn [existsb] in Hq.
      apply Bool.orb_false_iff in Hq as [Hx _].
      rewrite !Bool.orb_false_iff in Hx. destruct Hx as [[[_ H34] _] _].
      apply Z.eqb_neq in H34.
      cbn [app]. unfold read_field.
      destruct x as [|p|p]; try reflexivity.
      do 6 (destruct p as [p|p|]; try reflexivity). exfalso; apply H34; reflexivity.
Qed.

Lemma csv_join_length : forall f r, (List.length r <= List.length (csv_join (f :: r)))%nat.
Proof.
  intros f r. revert f. induction r as [|g r IH]; intros f; [simpl; lia|].
  change (csv_join (f :: g :: r)) with (csv_field f ++ 44 :: csv_join (g :: r)).
  rewrite length_app. cbn [List.length]. specialize (IH g). lia.
Qed.

Lemma read_fields_csv_join : forall row k rest, row <> [] ->
  (List.length row <= k)%nat ->
  read_fields k (csv_join row ++ 13 :: 10 :: rest) = Some (row, rest).
Proof.
  induction row as [|f row IH]; intros k rest Hne Hk; [congruence|].
  destruct k as [|k]; [cbn in Hk; lia|].
  destruct row as [|g row].
  - cbn [csv_join read_fields]. rewrite read_field_csv_field by (right; eauto). reflexivity.
  - change (csv_join (f :: g :: row)) with (csv_field f ++ 44 :: csv_join (g :: row)).
    cbn [read_fields]. rewrite <- app_assoc. cbn [app].
    rewrite read_field_csv_field by (right; eauto).
    rewrite (IH k rest) by (discriminate || (cbn in Hk |- *; lia)). reflexivity.
Qed.

(** Whatever the car model and the plate contain (commas, double quotes,
    line breaks), each line the log gets reads back as exactly the fields
    of its row, and the text after it is left for the next record. *)
Theorem csv_line_reads_back : forall row rest, row <> [] ->
  read_record (csv_line row ++ rest) = Some (row, rest).
Proof.
  intros row rest Hne. unfold read_record.
  destruct (list_eq_dec (list_eq_dec Z.eq_dec) row [[]]) as [-> | Hnot]; [reflexivity|].
  assert (Hcase : csv_line row = csv_join row ++ [13; 10]).
  { unfold csv_line. destruct row as [|[|x f] [|g r]]; try reflexivity. congruence. }
  rewrite Hcase, <- app_assoc. cbn [app].
  apply read_fields_csv_join; [exact Hne|].
  destruct row as [|f r]; [congruence|].
  rewrite length_app. pose proof (csv_join_length f r). cbn [List.length] in *. lia.
Qed.

Lemma csv_line_reads_back_witness :
  read_record (csv_line [s2c "Model, S"; s2c "AB" ++ [34] ++ s2c "1"; s2c "2026-10-18 12:00:00"]
               ++ s2c "next") =
  Some ([s2c "Model, S"; s2c "AB" ++ [34] ++ s2c "1"; s2c "2026-10-18 12:00:00"], s2c "next").
Proof.
  apply csv_line_reads_back. discriminate.
Defined.

Lemma concat_csv_lines_length : forall rows,
  (List.length rows <= List.length (List.concat (map csv_line rows)))%nat.
Proof.
  induction rows as [|r rows IH]; [simpl; lia|].
  cbn [map List.concat]. rewrite length_app. cbn [List.length].
  destruct (csv_line r) eqn:H; [exfalso; exact (csv_line_nonempty _ H)|].
  cbn [List.length]. lia.
Qed.

Lemma read_rows_lines : forall rows k,
  Forall (fun r => r <> []) rows -> (List.length rows <= k)%nat ->
  read_rows k (List.concat (map csv_line rows)) = Some rows.
Proof.
  induction rows as [|r rows IH]; intros k Hf Hk; [destruct k; reflexivity|].
  inversion Hf as [|? ? Hr Hrows]; subst.
  destruct k as [|k]; [cbn in Hk; lia|].
  cbn [map List.concat].
  set (t := List.concat (map csv_line rows)).
  assert (Hs : read_rows (S k) (csv_line r ++ t) =
    match read_record (csv_line r ++ t) with
    | None => None
    | Some (row, t') => match read_rows k t' with Some rs => Some (row :: rs) | None => None end
    end).
  { destruct (csv_line r) eqn:Hl; [exfalso; exact (csv_line_nonempty _ Hl)|reflexivity]. }
  rewrite Hs, (csv_line_reads_back r _ Hr).
  unfold t. rewrite (IH k Hrows) by (cbn in Hk; lia). reflexivity.
Qed.

Lemma read_csv_log : forall rows,
  Forall (fun r => List.length r = 3%nat) rows ->
  read_csv (csv_line header_row ++ List.concat (map csv_line rows)) = Some (header_row :: rows).
Proof.
  intros rows Hrows. unfold read_csv.
  change (csv_line header_row ++ List.concat (map csv_line rows))
    with (List.concat (map csv_line (header_row :: rows))).
  apply read_rows_lines.
  - constructor; [discriminate|].
    eapply Forall_impl; [|exact Hrows]. intros r Hr ->. discriminate.
  - apply concat_csv_lines_length.
Qed.

(** What the admin downloads parses as CSV into the header row followed by
    one record of three fields per reservation: the invariant
    [log_wellformed] holds of every log the application leaves. *)
Theorem log_reads_back : forall rows,
  Forall (fun r => List.length r = 3%nat) rows ->
  read_csv (csv_line header_row ++ List.concat (map csv_line rows)) = Some (header_row :: rows).
Proof. exact read_csv_log. Qed.


Lemma log_reads_back_witness :
  read_csv (csv_line header_row ++ List.concat (map csv_line
    [[s2c "Civic"; s2c "ABC,123"; s2c "2026-10-18 12:00:00"]])) =
  Some (header_row :: [[s2c "Civic"; s2c "ABC,123"; s2c "2026-10-18 12:00:00"]]).
Proof.
  apply log_reads_back. repeat constructor.
Defined.

Lemma reservation_row_length : forall r, reservation_row r -> List.length r = 3%nat.
Proof. intros r (c & p & t & -> & _). reflexivity. Qed.

Lemma reservation_row_not_header : forall r, reservation_row r -> r <> header_row.
Proof.
  intros r (c & p & t & -> & Ht) Heq. injection Heq as _ _ Ht'. subst t.
  vm_compute in Ht. discriminate Ht.
Qed.

(** Whatever sequence of requests it handles, the application leaves a log
    that is missing, empty, or reads back as CSV into the header row
    followed by reservation records (three fields, the last a timestamp),
    none of them a second header; as in [run_log_wellformed], provided no
    write of the [with] block fails and the clock's years have four
    digits. *)
Theorem run_log_readable : forall loads fromiso chk steps w,
  (forall n e, open_append_error w <> Some (WriteRaises n e)) ->
  Forall (fun s => valid_stamp (now_stamp (snd (fst s)))) steps ->
  log_wellformed (log_file w) ->
  match log_file (run loads fromiso chk steps w) with
  | None => True
  | Some c => c = [] \/ exists rows, Forall reservation_row rows /\ ~ In header_row rows /\
                 read_csv c = Some (header_row :: rows)
  end.
Proof.
  intros loads fromiso chk steps w Hno Hst Hw.
  destruct (run_preserves_log_wellformed loads fromiso chk steps w Hno Hst Hw)
    as [-> | [-> | (rows & Hrows & ->)]]; [exact I | left; reflexivity |].
  right. exists rows. split; [exact Hrows|]. split.
  - intros Hin. rewrite Forall_forall in Hrows.
    exact (reservation_row_not_header _ (Hrows _ Hin) eq_refl).
  - apply read_csv_log. eapply Forall_impl; [|exact Hrows]. exact reservation_row_length.
Qed.

Lemma run_log_readable_witness :
  match log_file (run JsonModel.json_loads TimeModel.time_fromisoformat (fun _ _ => Some true)
    [(cfg_open, ext_noon (StripeSession []), PostCheckout (Some (s2c "Civic")) (Some (s2c "A,1")))]
    fs_empty) with
  | None => True
  | Some c => c = [] \/ exists rows, Forall reservation_row rows /\ ~ In header_row rows /\
                 read_csv c = Some (header_row :: rows)
  end.
Proof.
  apply run_log_readable;
    [discriminate | repeat (apply Forall_cons; [exact noon_stamp_valid|]); apply Forall_nil |].
  left; reflexivity.
Defined.
